(** * Genome, gene decoders and Organism: a shallow embedding

    The development follows the three source files of the repository:
    [genome.py] (a byte buffer with a bounds-checked segment read and a
    single-byte write), [gene_decoder.py] (two decoders that reduce byte
    segments to a label or a number) and [organism.py] (an aggregator that
    owns one Genome and keeps a dictionary of decoded attributes).

    Python integers are [Z]; a [bytes] object is a [list Z] whose elements
    are in [0,255]; raising is a constructor of [result]; mutable objects
    are handled by explicit state passing, Genome objects that are shared
    between a caller and an Organism live in a heap. The limits of the
    interpreter and of the machine (the largest size, the memory that
    can be had, the longest integer that is converted to text) are
    parameters, class [Platform]. *)

From Stdlib Require Import ZArith Lia.
From stdpp Require Import gmap strings list fin_maps pretty.

Local Open Scope Z_scope.

(** ** The fragment of the Python runtime the sources rely on *)

Module py.

(** The exception classes that occur in the three files. *)
Inductive exn : Set :=
| IndexError
| ValueError
| ZeroDivisionError
| AttributeError
| OverflowError
| MemoryError.

Inductive result (A : Type) : Type :=
| Ok (a : A)
| Raise (e : exn).
Arguments Ok {A} a.
Arguments Raise {A} e.

(** Sequencing of computations that may raise. *)
Definition bind {A B} (m : result A) (k : A -> result B) : result B :=
  match m with
  | Ok a => k a
  | Raise e => Raise e
  end.

(** Computations over a mutable state [St]; the state reached when an
    exception is raised is kept, as in Python. *)
Definition M (St A : Type) : Type := St -> result A * St.

Definition ret {St A} (a : A) : M St A := fun s => (Ok a, s).
Definition raise {St A} (e : exn) : M St A := fun s => (Raise e, s).
Definition lift {St A} (r : result A) : M St A := fun s => (r, s).
Definition get {St} : M St St := fun s => (Ok s, s).
Definition put {St} (s : St) : M St unit := fun _ => (Ok tt, s).
Definition mbind {St A B} (m : M St A) (k : A -> M St B) : M St B :=
  fun s =>
    match m s with
    | (Ok a, s') => k a s'
    | (Raise e, s') => (Raise e, s')
    end.

(** [len(x)] as a Python integer. *)
Definition len {A} (l : list A) : Z := Z.of_nat (length l).

(** Truth value of a sequence: empty sequences are false. *)
Definition truthy {A} (l : list A) : bool :=
  match l with [] => false | _ :: _ => true end.

(** [sum(xs)]: starts from 0 and adds from the left. *)
Definition sum (xs : list Z) : Z := fold_left Z.add xs 0.

(** [a % b] on integers: floor modulus, [ZeroDivisionError] for [b = 0]. *)
Definition mod_ (a b : Z) : result Z :=
  if b =? 0 then Raise ZeroDivisionError else Ok (a mod b).

(** A slice bound is clamped into [0, n]; a negative one counts from
    the end. *)
Definition slice_bound (n i : Z) : Z :=
  if i <? 0 then Z.max (i + n) 0 else Z.min i n.

(** [l[i:j]]. *)
Definition slice {A} (l : list A) (i j : Z) : list A :=
  let lo := slice_bound (len l) i in
  let hi := slice_bound (len l) j in
  take (Z.to_nat (hi - lo)) (drop (Z.to_nat lo) l).

(** Normalisation of a subscript: negative subscripts count from the
    end, anything outside the sequence is an [IndexError]. *)
Definition subscript {A} (l : list A) (i : Z) : result nat :=
  let k := if i <? 0 then i + len l else i in
  if (0 <=? k) && (k <? len l) then Ok (Z.to_nat k) else Raise IndexError.

(** [l[i]]. *)
Definition getitem {A} (l : list A) (i : Z) : result A :=
  bind (subscript l i) (fun k =>
    match l !! k with
    | Some x => Ok x
    | None => Raise IndexError
    end).

(** [b[i] = v] on a [bytearray]: the subscript must be in range and
    the value a byte. *)
Definition bytearray_setitem (b : list Z) (i v : Z) : result (list Z) :=
  bind (subscript b i) (fun k =>
    if (0 <=? v) && (v <=? 255) then Ok (<[k := v]> b)
    else Raise ValueError).

(** A [bytes] object holds values in [0,255] only. *)
Definition is_bytes (b : list Z) : Prop := Forall (fun x => 0 <= x <= 255) b.

(** A source of random bytes: each draw yields a byte and the next
    state of the source. *)
Class RandomSource (R : Type) : Type := {
  next_byte : R -> Z * R;
  next_byte_range : forall r, 0 <= fst (next_byte r) <= 255
}.

(** [n] successive draws. *)
Fixpoint draw_bytes `{RandomSource R} (n : nat) (r : R) : list Z * R :=
  match n with
  | O => ([], r)
  | S n' =>
      let (b, r1) := next_byte r in
      let (bs, r2) := draw_bytes n' r1 in
      (b :: bs, r2)
  end.

(** Why a [bytes] object of a given size cannot be obtained: the
    machine has no memory for it, or the size is beyond what a [bytes]
    object can have. *)
Inductive alloc_failure : Set :=
| NoMemory
| TooLarge.

Definition alloc_exn (f : alloc_failure) : exn :=
  match f with
  | NoMemory => MemoryError
  | TooLarge => OverflowError
  end.

(** The limits of the interpreter and of the machine it runs on:
    [sys.maxsize]; what a request for a [bytes] object of [n] bytes
    meets ([None] when the object is obtained); and
    [sys.get_int_max_str_digits()], the longest decimal form an integer
    may be converted to (4300 unless changed), 0 when conversions are
    not limited, as in interpreters that have no such limit. *)
Class Platform : Type := {
  maxsize : Z;
  bytes_alloc : Z -> option alloc_failure;
  int_max_str_digits : Z
}.

(** [os.urandom(size)]: the size must fit the machine's size type and
    must not be negative, the result object must be obtained, and then
    [size] bytes are drawn from the random source, which is taken to
    exist. *)
Definition urandom `{Platform} `{RandomSource R} (size : Z)
  : M R (list Z) :=
  if (size <? - maxsize - 1) || (maxsize <? size) then raise OverflowError
  else if size <? 0 then raise ValueError
  else
    match bytes_alloc size with
    | Some f => raise (alloc_exn f)
    | None =>
        fun r => let (bs, r') := draw_bytes (Z.to_nat size) r in
                 (Ok bs, r')
    end.

(** The number of digits of the decimal form of an integer, sign
    apart. *)
Definition decimal_digits (n : Z) : Z :=
  Z.of_nat (String.length (pretty (Z.abs n))).

(** [str(n)] for an integer, as in [f"{n}"]: a decimal form longer than
    the interpreter's limit is refused with [ValueError]. *)
Definition str_int `{Platform} (n : Z) : result string :=
  if (0 <? int_max_str_digits) && (int_max_str_digits <? decimal_digits n)
  then Raise ValueError
  else Ok (pretty n).

(** One lowercase hexadecimal digit. *)
Definition hex_digit (n : Z) : Ascii.ascii :=
  Ascii.ascii_of_nat (Z.to_nat (if n <? 10 then 48 + n else 87 + n)).

(** [b.hex()] on a [bytes] object: two digits per byte, the high one
    first, no separator. *)
Definition hex (b : list Z) : string :=
  foldr (fun x s => String (hex_digit (x / 16))
                      (String (hex_digit (x mod 16)) s))
        EmptyString b.

End py.

Import py.

Declare Scope py_scope.
Delimit Scope py_scope with py.
Notation "x <- m ;; k" := (mbind m (fun x => k))
(at level 100, m at next level, right associativity) : py_scope.
Notation "m ;;; k" := (mbind m (fun _ => k))
(at level 100, right associativity) : py_scope.

(** ** genome.py *)

Module genome_py.
Section genome_py.
Context {R : Type} `{RandomSource R} `{Platform}.

(** An instance of class [Genome]: its only attribute is [data]. *)
Record Genome : Type := mkGenome { data : list Z }.

(** [Genome.__init__(self, size=1024, data=None)]; the random source is
    the state. *)
Definition init (size : Z) (data : option (list Z)) : M R Genome :=
  match data with
  | Some d => ret (mkGenome d)
  | None =>
      if size <? 0 then raise ValueError
      else (bs <- urandom size ;; ret (mkGenome bs))%py
  end.

(** [Genome.get_gene(self, start_index, length)]. *)
Definition get_gene (self : Genome) (start_index length : Z)
  : result (list Z) :=
  if negb ((0 <=? start_index) && (start_index <? len (data self)))
     || negb (0 <? length)
     || negb (start_index + length <=? len (data self))
  then Raise IndexError
  else Ok (slice (data self) start_index (start_index + length)).

(** [Genome.mutate_byte(self, index, new_byte_value=None)]. The state
    is the object itself together with the random source. *)
Definition mutate_byte (index : Z) (new_byte_value : option Z)
  : M (Genome * R) unit :=
  (st <- get ;;
   let self := fst st in
   if negb ((0 <=? index) && (index <? len (data self)))
   then raise IndexError
   else
     let temp_data := data self in
     temp_data' <-
       match new_byte_value with
       | Some v =>
           if negb ((0 <=? v) && (v <=? 255)) then raise ValueError
           else lift (bytearray_setitem temp_data index v)
       | None =>
           fun st => let (b, r') := next_byte (snd st) in
                     (bytearray_setitem temp_data index b, (fst st, r'))
       end ;;
     st' <- get ;;
     put (mkGenome temp_data', snd st'))%py.

(** [Genome.__len__(self)]. *)
Definition len_ (self : Genome) : Z := len (data self).

(** [Genome.__str__(self)]. *)
Definition str_ (self : Genome) : string := hex (data self).

End genome_py.
End genome_py.

Import genome_py.

(** ** gene_decoder.py *)

Module gene_decoder_py.

(** [decode_simple_attribute(genome, gene_start, gene_length,
    attribute_options)]. [Ok None] is the function returning [None];
    only an [IndexError] of [get_gene] is caught. *)
Definition decode_simple_attribute (genome : Genome)
    (gene_start gene_length : Z) (attribute_options : list string)
  : result (option string) :=
  if negb (truthy attribute_options) then Ok None
  else
    match get_gene genome gene_start gene_length with
    | Raise IndexError => Ok None
    | Raise e => Raise e
    | Ok gene_bytes =>
        if negb (truthy gene_bytes) then Ok None
        else
          let sum_of_bytes := sum gene_bytes in
          bind (mod_ sum_of_bytes (len attribute_options))
            (fun selected_index =>
               bind (getitem attribute_options selected_index)
                 (fun label => Ok (Some label)))
    end.

(** [decode_interacting_genes(genome, gene1_start, gene1_length,
    gene2_start, gene2_length, max_value)]. Both reads are inside one
    [try] block. *)
Definition decode_interacting_genes (genome : Genome)
    (gene1_start gene1_length gene2_start gene2_length max_value : Z)
  : result (option Z) :=
  if max_value <=? 0 then Ok None
  else
    match
      bind (get_gene genome gene1_start gene1_length) (fun gene1_bytes =>
      bind (get_gene genome gene2_start gene2_length) (fun gene2_bytes =>
      Ok (gene1_bytes, gene2_bytes)))
    with
    | Raise IndexError => Ok None
    | Raise e => Raise e
    | Ok (gene1_bytes, gene2_bytes) =>
        if negb (truthy gene1_bytes) || negb (truthy gene2_bytes)
        then Ok None
        else
          let sum_gene1 := sum gene1_bytes in
          let sum_gene2 := sum gene2_bytes in
          let combined_value := sum_gene1 * sum_gene2 in
          bind (mod_ combined_value max_value)
            (fun final_value => Ok (Some final_value))
    end.

End gene_decoder_py.

Import gene_decoder_py.

(** ** organism.py *)

Module organism_py.

(** Class-level constants of [Organism]. *)
Definition COLOR_GENE_START : Z := 0.
Definition COLOR_GENE_LENGTH : Z := 4.
Definition COLOR_OPTIONS : list string :=
  ["red"; "green"; "blue"; "yellow"; "purple";
   "orange"; "pink"; "brown"; "black"; "white"]%string.
Definition SIZE_GENE1_START : Z := COLOR_GENE_START + COLOR_GENE_LENGTH.
Definition SIZE_GENE1_LENGTH : Z := 2.
Definition SIZE_GENE2_START : Z := SIZE_GENE1_START + SIZE_GENE1_LENGTH.
Definition SIZE_GENE2_LENGTH : Z := 2.
Definition SIZE_MAX_VALUE : Z := 100.
Definition MIN_GENOME_SIZE : Z := SIZE_GENE2_START + SIZE_GENE2_LENGTH.

(** What the attribute dictionary holds: a label, a number or [None]. *)
Inductive value : Type :=
| VStr (s : string)
| VInt (n : Z)
| VNone.

Definition of_label (o : option string) : value :=
  match o with Some s => VStr s | None => VNone end.
Definition of_number (o : option Z) : value :=
  match o with Some n => VInt n | None => VNone end.

(** References to Genome objects. A reference that the heap does not
    map is a reference to an object of some other class. *)
Definition loc : Type := positive.

(** An instance of class [Organism]. *)
Record Organism : Type := mkOrganism {
  genome : loc;
  attributes : gmap string value
}.

Section organism_py.
Context {R : Type} `{RandomSource R} `{Platform}.

(** What a constructor call can touch: the Genome objects, the random
    source and the lines printed so far. *)
Record World : Type := mkWorld {
  heap : gmap loc Genome;
  entropy : R;
  stdout : list string
}.

(** [print(line)]. *)
Definition print (line : string) : M World unit :=
  fun w => (Ok tt, mkWorld (heap w) (entropy w) (stdout w ++ [line])).

(** [Genome(size=size)]: builds the object from the random source and
    stores it at a fresh reference. *)
Definition new_Genome (size : Z) : M World loc :=
  fun w =>
    match genome_py.init size None (entropy w) with
    | (Ok g, r') =>
        let l := fresh (dom (heap w)) in
        (Ok l, mkWorld (<[l := g]> (heap w)) r' (stdout w))
    | (Raise e, r') => (Raise e, mkWorld (heap w) r' (stdout w))
    end.

(** Access to [self.genome] for a method call of class [Genome]. *)
Definition the_genome (h : gmap loc Genome) (l : loc) : result Genome :=
  match h !! l with
  | Some g => Ok g
  | None => Raise AttributeError
  end.

(** [self.attributes[key] = v]. *)
Definition set_attribute (key : string) (v : value) : M Organism unit :=
  fun self => (Ok tt, mkOrganism (genome self) (<[key := v]> (attributes self))).

(** [Organism.decode_attributes(self)]; the state is [self], the
    Genome objects are only read. *)
Definition decode_attributes (h : gmap loc Genome) : M Organism unit :=
  (self <- get ;;
   g <- lift (the_genome h (genome self)) ;;
   color <- lift (decode_simple_attribute g
                    COLOR_GENE_START COLOR_GENE_LENGTH COLOR_OPTIONS) ;;
   set_attribute "color" (of_label color) ;;;
   self <- get ;;
   g <- lift (the_genome h (genome self)) ;;
   size <- lift (decode_interacting_genes g
                   SIZE_GENE1_START SIZE_GENE1_LENGTH
                   SIZE_GENE2_START SIZE_GENE2_LENGTH
                   SIZE_MAX_VALUE) ;;
   set_attribute "size" (of_number size))%py.

(** The warning printed when the requested size is raised. *)
Definition size_warning (genome_size : Z) : string :=
  ("Warning: Requested genome_size (" +:+ pretty genome_size +:+
   ") is less than MIN_GENOME_SIZE " +:+
   "(" +:+ pretty MIN_GENOME_SIZE +:+ "). Adjusting to minimum size.")%string.

(** Evaluation of the f-string that builds the warning: the two
    integers are converted in turn, and a conversion may be refused. *)
Definition format_size_warning (genome_size : Z) : result string :=
  bind (str_int genome_size) (fun requested =>
  bind (str_int MIN_GENOME_SIZE) (fun minimum =>
  Ok ("Warning: Requested genome_size (" +:+ requested +:+
      ") is less than MIN_GENOME_SIZE " +:+
      "(" +:+ minimum +:+ "). Adjusting to minimum size.")%string)).

(** [isinstance(genome_instance, Genome)] for a non-[None] argument. *)
Definition as_Genome (h : gmap loc Genome) (genome_instance : option loc)
  : option (loc * Genome) :=
  match genome_instance with
  | Some l => match h !! l with Some g => Some (l, g) | None => None end
  | None => None
  end.

(** [Organism.__init__(self, genome_size=1024, genome_instance=None)].
    The result is the constructed object. Of the [ValueError] for a
    Genome that is too small only the class is kept, not the message. *)
Definition init (genome_size : Z) (genome_instance : option loc)
  : M World Organism :=
  (w <- get ;;
   self_genome <-
     match as_Genome (heap w) genome_instance with
     | Some (l, g) =>
         if len_ g <? MIN_GENOME_SIZE then raise ValueError
         else ret l
     | None =>
         genome_size <-
           (if genome_size <? MIN_GENOME_SIZE
            then (line <- lift (format_size_warning genome_size) ;;
                  print line ;;; ret MIN_GENOME_SIZE)
            else ret genome_size) ;;
         new_Genome genome_size
     end ;;
   w <- get ;;
   let self := mkOrganism self_genome ∅ in
   match decode_attributes (heap w) self with
   | (Ok _, self') => ret self'
   | (Raise e, _) => raise e
   end)%py.

(** [self.genome.mutate_byte(index, new_byte_value)]: the method call
    goes through the reference the Organism holds, so the object in the
    heap is the one that changes. *)
Definition genome_mutate_byte (self : Organism) (index : Z)
    (new_byte_value : option Z) : M World unit :=
  fun w =>
    match the_genome (heap w) (genome self) with
    | Raise e => (Raise e, w)
    | Ok g =>
        match mutate_byte index new_byte_value (g, entropy w) with
        | (r, (g', rng')) =>
            (r, mkWorld (<[genome self := g']> (heap w)) rng' (stdout w))
        end
    end.

End organism_py.
End organism_py.

Import organism_py.

(** ** Vocabulary of the statements *)

(** The coordinates [(start, length)] designate a segment of the buffer. *)
Definition in_bounds (g : Genome) (start length : Z) : Prop :=
  0 <= start < len (data g) /\ 0 < length /\ start + length <= len (data g).

(** The bytes at positions [start], ..., [start + length - 1]. *)
Definition segment (g : Genome) (start length : Z) : list Z :=
  take (Z.to_nat length) (drop (Z.to_nat start) (data g)).

(** The value of a hexadecimal digit, the inverse of [hex_digit]. *)
Definition hex_value (c : Ascii.ascii) : Z :=
  let n := Z.of_nat (Ascii.nat_of_ascii c) in
  if n <? 58 then n - 48 else n - 87.

(** Reading a hexadecimal string back, two digits per byte. *)
Fixpoint unhex (s : string) : list Z :=
  match s with
  | String hi (String lo rest) =>
      (16 * hex_value hi + hex_value lo) :: unhex rest
  | _ => []
  end.

(** A random source for the closed examples: a linear congruential
    generator on bytes. *)
Definition lcg_step (r : Z) : Z * Z :=
  let b := (r * 37 + 11) mod 256 in (b, b).

#[local] Instance lcg : RandomSource Z := {|
  next_byte := lcg_step;
  next_byte_range := fun r =>
    let Hmod := Z.mod_pos_bound (r * 37 + 11) 256 eq_refl in
    conj (proj1 Hmod) (proj1 (Z.lt_succ_r _ 255) (proj2 Hmod))
|}.

(** The limits of a 64-bit interpreter with the default digit limit,
    on a machine that can provide blocks of up to 4 GiB. *)
#[local] Instance cpython64 : Platform := {|
  maxsize := 2 ^ 63 - 1;
  bytes_alloc := fun n => if n <=? 2 ^ 32 then None else Some NoMemory;
  int_max_str_digits := 4300
|}.

(** Side conditions on closed inputs. *)
Ltac concrete := cbv [in_bounds len data length maxsize cpython64]; lia.

(** ** The Python runtime fragment *)

Section py_facts.
Context {A : Type}.
Implicit Types (l : list A) (i j : Z).

Lemma len_nonneg l : 0 <= len l.
Proof. unfold len; lia. Qed.

Lemma len_nil_iff l : len l = 0 <-> l = [].
Proof.
  unfold len; destruct l; cbn [length]; split; intros E;
    first [reflexivity | lia | discriminate].
Qed.

Lemma truthy_spec l : truthy l = true <-> l <> [].
Proof. destruct l; cbn; split; intros; congruence. Qed.

(** Inside the sequence a slice is "drop, then take". *)
Lemma slice_inside l i j :
  0 <= i -> i <= j -> j <= len l ->
  slice l i j = take (Z.to_nat (j - i)) (drop (Z.to_nat i) l).
Proof.
  intros Hi Hij Hj. unfold slice, slice_bound.
  destruct (Z.ltb_spec i 0); [lia|].
  destruct (Z.ltb_spec j 0); [lia|].
  rewrite !Z.min_l by lia. reflexivity.
Qed.

Lemma subscript_inside l i :
  0 <= i < len l -> subscript l i = Ok (Z.to_nat i).
Proof.
  intros [H0 H1]. unfold subscript.
  destruct (Z.ltb_spec i 0); [lia|].
  destruct (Z.leb_spec 0 i); [|lia].
  destruct (Z.ltb_spec i (len l)); [|lia].
  reflexivity.
Qed.

(** Reading at a subscript inside the sequence never raises. *)
Lemma getitem_inside l i :
  0 <= i < len l ->
  exists x, l !! Z.to_nat i = Some x /\ getitem l i = Ok x.
Proof.
  intros Hi. unfold getitem. rewrite subscript_inside by assumption.
  cbn [bind].
  destruct (lookup_lt_is_Some_2 l (Z.to_nat i)) as [x Hx].
  { unfold len in Hi; lia. }
  exists x. rewrite Hx. split; reflexivity.
Qed.

End py_facts.

Lemma bytearray_setitem_inside (b : list Z) (i v : Z) :
  0 <= i < len b -> 0 <= v <= 255 ->
  bytearray_setitem b i v = Ok (<[Z.to_nat i := v]> b).
Proof.
  intros Hi [Hv0 Hv1]. unfold bytearray_setitem.
  rewrite subscript_inside by assumption. cbn [bind].
  destruct (Z.leb_spec 0 v); [|lia].
  destruct (Z.leb_spec v 255); [|lia].
  reflexivity.
Qed.

Lemma mod_positive (a b : Z) :
  0 < b -> mod_ a b = Ok (a mod b) /\ 0 <= a mod b < b.
Proof.
  intros Hb. unfold mod_.
  destruct (Z.eqb_spec b 0); [lia|].
  split; [reflexivity | apply Z.mod_pos_bound; assumption].
Qed.

(** [sum] is the sum of the elements, whatever the accumulator. *)
Lemma fold_left_add_acc (xs : list Z) (a : Z) :
  fold_left Z.add xs a = a + fold_left Z.add xs 0.
Proof.
  revert a. induction xs as [|x xs IH]; intros a; cbn [fold_left].
  - lia.
  - rewrite (IH (a + x)), (IH (0 + x)). lia.
Qed.

Lemma sum_cons (x : Z) (xs : list Z) : sum (x :: xs) = x + sum xs.
Proof. unfold sum; cbn [fold_left]. rewrite fold_left_add_acc. lia. Qed.

Lemma sum_bytes_nonneg (xs : list Z) : is_bytes xs -> 0 <= sum xs.
Proof.
  induction 1 as [|x xs Hx _ IH]; [unfold sum; cbn; lia|].
  rewrite sum_cons; lia.
Qed.

(** Every block of drawn bytes has the requested length and holds
    bytes. *)
Lemma draw_bytes_length `{RandomSource R} (n : nat) (r : R) :
  length (fst (draw_bytes n r)) = n.
Proof.
  revert r. induction n as [|n IH]; intros r; cbn [draw_bytes];
    [reflexivity|].
  destruct (next_byte r) as [b r1]. specialize (IH r1).
  destruct (draw_bytes n r1) as [bs r2]. cbn [fst length] in *. lia.
Qed.

Lemma draw_bytes_is_bytes `{RandomSource R} (n : nat) (r : R) :
  is_bytes (fst (draw_bytes n r)).
Proof.
  revert r. induction n as [|n IH]; intros r; cbn [draw_bytes].
  - constructor.
  - pose proof (next_byte_range r) as Hb.
    destruct (next_byte r) as [b r1]. specialize (IH r1).
    destruct (draw_bytes n r1) as [bs r2]. cbn [fst] in *.
    constructor; assumption.
Qed.

(** [os.urandom] on a size that is not negative: the three outcomes. *)
Lemma urandom_cases `{Platform} `{RandomSource R} (size : Z) (r : R) :
  0 <= size ->
  (maxsize < size /\ urandom size r = (Raise OverflowError, r))
  \/ (size <= maxsize
      /\ exists f, bytes_alloc size = Some f
                   /\ urandom size r = (Raise (alloc_exn f), r))
  \/ (size <= maxsize /\ bytes_alloc size = None
      /\ exists bs r',
           urandom size r = (Ok bs, r')
           /\ len bs = size /\ is_bytes bs
           /\ (size = 0 -> r' = r)).
Proof.
  intros Hsize. unfold urandom.
  destruct (Z.ltb_spec size (- maxsize - 1));
    destruct (Z.ltb_spec maxsize size); cbn [orb];
    try (left; split; [lia | reflexivity]).
  right. destruct (Z.ltb_spec size 0); [lia|].
  destruct (bytes_alloc size) as [f|] eqn:Ealloc.
  - left. split; [assumption|]. exists f. split; reflexivity.
  - right. split; [assumption|]. split; [reflexivity|].
    pose proof (draw_bytes_length (Z.to_nat size) r) as Hlen.
    pose proof (draw_bytes_is_bytes (Z.to_nat size) r) as Hbytes.
    assert (size = 0 -> snd (draw_bytes (Z.to_nat size) r) = r) as Hzero.
    { intros ->. reflexivity. }
    destruct (draw_bytes (Z.to_nat size) r) as [bs r'].
    cbn [fst snd] in *. exists bs, r'.
    split; [reflexivity|]. split; [unfold len; lia|]. auto.
Qed.

(** An [os.urandom] that returns has returned [size] bytes. *)
Lemma urandom_ok_inv `{Platform} `{RandomSource R} (size : Z) (r r' : R)
    (bs : list Z) :
  0 <= size -> urandom size r = (Ok bs, r') ->
  size <= maxsize /\ bytes_alloc size = None
  /\ len bs = size /\ is_bytes bs.
Proof.
  intros Hsize Hrun.
  destruct (urandom_cases size r Hsize)
    as [[_ E] | [(_ & f & _ & E) | (Hfit & Halloc & bs' & r'' & E & Hl & Hb & _)]];
    rewrite E in Hrun; try discriminate.
  injection Hrun as <- <-. auto.
Qed.

(** The only integers whose conversion is refused are those with more
    digits than a positive limit. *)
Lemma str_int_cases `{Platform} (n : Z) :
  (0 < int_max_str_digits < decimal_digits n /\ str_int n = Raise ValueError)
  \/ (~ 0 < int_max_str_digits < decimal_digits n
      /\ str_int n = Ok (pretty n)).
Proof.
  unfold str_int.
  destruct (Z.ltb_spec 0 int_max_str_digits);
    destruct (Z.ltb_spec int_max_str_digits (decimal_digits n));
    cbn [andb]; first [left; split; [lia | reflexivity]
                      | right; split; [lia | reflexivity]].
Qed.

(** An integer with one digit is always converted. *)
Lemma str_int_one_digit `{Platform} (n : Z) :
  decimal_digits n = 1 -> str_int n = Ok (pretty n).
Proof.
  intros Hone.
  destruct (str_int_cases n) as [[Hlim _] | [_ E]]; [lia | exact E].
Qed.

(** ** genome.py: segment reads *)

Lemma in_bounds_dec (g : Genome) (start length : Z) :
  in_bounds g start length \/
  (start < 0 \/ len (data g) <= start \/ length <= 0
   \/ len (data g) < start + length).
Proof. unfold in_bounds; lia. Qed.

Lemma get_gene_in_bounds (g : Genome) (start length : Z) :
  in_bounds g start length ->
  get_gene g start length = Ok (segment g start length).
Proof.
  intros (Hs & Hl & He). unfold get_gene, segment.
  destruct (Z.leb_spec 0 start); [|lia].
  destruct (Z.ltb_spec start (len (data g))); [|lia].
  destruct (Z.ltb_spec 0 length); [|lia].
  destruct (Z.leb_spec (start + length) (len (data g))); [|lia].
  cbn [andb negb orb].
  rewrite slice_inside by lia.
  replace (start + length - start) with length by lia. reflexivity.
Qed.

Lemma get_gene_out_of_bounds (g : Genome) (start length : Z) :
  start < 0 \/ len (data g) <= start \/ length <= 0
  \/ len (data g) < start + length ->
  get_gene g start length = Raise IndexError.
Proof.
  intros Hout. unfold get_gene.
  destruct (Z.leb_spec 0 start); destruct (Z.ltb_spec start (len (data g)));
    destruct (Z.ltb_spec 0 length);
    destruct (Z.leb_spec (start + length) (len (data g)));
    cbn [andb negb orb]; first [reflexivity | lia].
Qed.

Lemma segment_length (g : Genome) (start length : Z) :
  in_bounds g start length -> len (segment g start length) = length.
Proof.
  intros (Hs & Hl & He). unfold segment, len in *.
  rewrite length_take, length_drop. lia.
Qed.

Lemma segment_lookup (g : Genome) (start length : Z) (i : nat) :
  (i < Z.to_nat length)%nat ->
  segment g start length !! i = data g !! (Z.to_nat start + i)%nat.
Proof.
  intros Hi. unfold segment.
  rewrite lookup_take_lt by assumption. apply lookup_drop.
Qed.

Lemma segment_truthy (g : Genome) (start length : Z) :
  in_bounds g start length -> truthy (segment g start length) = true.
Proof.
  intros Hb. apply truthy_spec. intros E.
  pose proof (segment_length g start length Hb) as Hlen.
  rewrite E in Hlen. unfold in_bounds, len in *. cbn in Hlen. lia.
Qed.

(** The only exception of [get_gene] is [IndexError]. *)
Lemma get_gene_cases (g : Genome) (start length : Z) :
  (in_bounds g start length
   /\ get_gene g start length = Ok (segment g start length))
  \/ (~ in_bounds g start length
      /\ get_gene g start length = Raise IndexError).
Proof.
  destruct (in_bounds_dec g start length) as [Hin | Hout].
  - left. split; [assumption | apply get_gene_in_bounds; assumption].
  - right. split; [unfold in_bounds; lia|].
    apply get_gene_out_of_bounds; assumption.
Qed.

(** C1. [get_gene] returns the [length] bytes found at positions
    [start .. start+length-1] when [0 <= start < len(data)],
    [length > 0] and [start + length <= len(data)]; it raises
    [IndexError] in exactly the complementary cases ([start < 0],
    [start >= len(data)], [length <= 0] or
    [start + length > len(data)]); a request of length zero always
    raises. *)
Theorem get_gene_spec (g : Genome) (start length : Z) :
  (0 <= start < len (data g) /\ 0 < length
   /\ start + length <= len (data g) ->
   exists seg,
     get_gene g start length = Ok seg
     /\ seg = segment g start length
     /\ len seg = length
     /\ forall i : nat, (i < Z.to_nat length)%nat ->
          seg !! i = data g !! (Z.to_nat start + i)%nat)
  /\ (start < 0 \/ len (data g) <= start \/ length <= 0
      \/ len (data g) < start + length ->
      get_gene g start length = Raise IndexError)
  /\ (forall seg, get_gene g start length = Ok seg ->
      0 <= start < len (data g) /\ 0 < length
      /\ start + length <= len (data g))
  /\ get_gene g start 0 = Raise IndexError.
Proof.
  split; [|split; [|split]].
  - intros Hb. exists (segment g start length).
    split; [apply get_gene_in_bounds; exact Hb|].
    split; [reflexivity|].
    split; [apply segment_length; exact Hb|].
    intros i Hi. apply segment_lookup; assumption.
  - apply get_gene_out_of_bounds.
  - intros seg Hseg.
    destruct (get_gene_cases g start length) as [[Hin _] | [_ Hr]];
      [exact Hin | congruence].
  - apply get_gene_out_of_bounds. lia.
Qed.

Lemma get_gene_spec_witness :
  get_gene (mkGenome [0; 1; 2; 3; 4; 5; 6; 7; 8; 9]) 2 4 = Ok [2; 3; 4; 5]
  /\ get_gene (mkGenome [0; 1; 2; 3; 4; 5; 6; 7; 8; 9]) 5 6
     = Raise IndexError.
Proof.
  split.
  - destruct (get_gene_spec (mkGenome [0; 1; 2; 3; 4; 5; 6; 7; 8; 9]) 2 4)
      as [Hok _].
    destruct Hok as (seg & Hget & Hseg & _).
    + concrete.
    + rewrite Hget, Hseg. reflexivity.
  - destruct (get_gene_spec (mkGenome [0; 1; 2; 3; 4; 5; 6; 7; 8; 9]) 5 6)
      as (_ & Hfail & _).
    apply Hfail. concrete.
Defined.

(** ** genome.py: single-byte writes *)

Section mutate_byte_facts.
Context {R : Type} `{RandomSource R}.
Implicit Types (g : Genome) (r : R) (index value : Z).

(** The subscript is checked before anything else, whatever the value. *)
Lemma mutate_byte_index_error g r index (new_byte_value : option Z) :
  ~ 0 <= index < len (data g) ->
  mutate_byte index new_byte_value (g, r) = (Raise IndexError, (g, r)).
Proof.
  intros Hout. unfold mutate_byte, mbind, get. cbn [fst snd].
  destruct (Z.leb_spec 0 index); destruct (Z.ltb_spec index (len (data g)));
    cbn [andb negb]; first [reflexivity | lia].
Qed.

Lemma mutate_byte_value_error g r index value :
  0 <= index < len (data g) -> ~ 0 <= value <= 255 ->
  mutate_byte index (Some value) (g, r) = (Raise ValueError, (g, r)).
Proof.
  intros Hin Hout. unfold mutate_byte, mbind, get. cbn [fst snd].
  destruct (Z.leb_spec 0 index); [|lia].
  destruct (Z.ltb_spec index (len (data g))); [|lia].
  cbn [andb negb].
  destruct (Z.leb_spec 0 value); destruct (Z.leb_spec value 255);
    cbn [andb negb]; first [reflexivity | lia].
Qed.

Lemma mutate_byte_explicit_ok g r index value :
  0 <= index < len (data g) -> 0 <= value <= 255 ->
  mutate_byte index (Some value) (g, r)
  = (Ok tt, (mkGenome (<[Z.to_nat index := value]> (data g)), r)).
Proof.
  intros Hin Hv. unfold mutate_byte, mbind, get, put, lift. cbn [fst snd].
  rewrite bytearray_setitem_inside by assumption.
  destruct (Z.leb_spec 0 index); [|lia].
  destruct (Z.ltb_spec index (len (data g))); [|lia].
  destruct (Z.leb_spec 0 value); [|lia].
  destruct (Z.leb_spec value 255); [|lia].
  reflexivity.
Qed.

(** Without a value the byte comes from the random source, which
    advances by one draw. *)
Lemma mutate_byte_random_ok g r index :
  0 <= index < len (data g) ->
  mutate_byte index None (g, r)
  = (Ok tt, (mkGenome (<[Z.to_nat index := fst (next_byte r)]> (data g)),
             snd (next_byte r))).
Proof.
  intros Hin. unfold mutate_byte, mbind, get, put. cbn [fst snd].
  destruct (Z.leb_spec 0 index); [|lia].
  destruct (Z.ltb_spec index (len (data g))); [|lia].
  cbn [andb negb fst snd].
  pose proof (next_byte_range r) as Hb.
  destruct (next_byte r) as [b r']. cbn [fst snd] in *.
  rewrite bytearray_setitem_inside by assumption.
  reflexivity.
Qed.

(** X6. Whatever the arguments and whether or not the call raises,
    [mutate_byte] leaves a buffer of bytes a buffer of bytes, of the
    same length. *)
Lemma mutate_byte_preserves g r index (new_byte_value : option Z) :
  is_bytes (data g) ->
  let g' := fst (snd (mutate_byte index new_byte_value (g, r))) in
  is_bytes (data g') /\ len (data g') = len (data g).
Proof.
  intros Hg.
  destruct (decide (0 <= index < len (data g))) as [Hin | Hout];
    [|rewrite mutate_byte_index_error by assumption; cbn; auto].
  destruct new_byte_value as [v|].
  - destruct (decide (0 <= v <= 255)) as [Hv | Hv].
    + rewrite mutate_byte_explicit_ok by assumption. cbn [fst snd data].
      split; [|unfold len; rewrite length_insert; reflexivity].
      apply Forall_insert; assumption.
    + rewrite mutate_byte_value_error by assumption. cbn; auto.
  - rewrite mutate_byte_random_ok by assumption. cbn [fst snd data].
    split; [|unfold len; rewrite length_insert; reflexivity].
    apply Forall_insert; [assumption | apply next_byte_range].
Qed.

End mutate_byte_facts.

(** C6. [mutate_byte] with an explicit value in [0,255] at an index in
    [0, len(data)) stores the value at that index and leaves every other
    byte and the length as they were; with a value outside [0,255] or an
    index outside [0, len(data)) the call raises ([ValueError] for the
    value, [IndexError] for the index) and the buffer is unchanged. *)
Theorem mutate_byte_explicit_spec `{RandomSource R}
    (g : Genome) (r : R) (index value : Z) :
  (0 <= index < len (data g) -> 0 <= value <= 255 ->
   exists g',
     mutate_byte index (Some value) (g, r) = (Ok tt, (g', r))
     /\ data g' !! Z.to_nat index = Some value
     /\ (forall j : nat, j <> Z.to_nat index -> data g' !! j = data g !! j)
     /\ len (data g') = len (data g))
  /\ (~ 0 <= value <= 255 \/ ~ 0 <= index < len (data g) ->
      exists e,
        (e = ValueError \/ e = IndexError)
        /\ mutate_byte index (Some value) (g, r) = (Raise e, (g, r)))
  /\ (0 <= index < len (data g) -> ~ 0 <= value <= 255 ->
      mutate_byte index (Some value) (g, r) = (Raise ValueError, (g, r)))
  /\ (~ 0 <= index < len (data g) -> 0 <= value <= 255 ->
      mutate_byte index (Some value) (g, r) = (Raise IndexError, (g, r))).
Proof.
  split; [|split; [|split]].
  - intros Hin Hv. exists (mkGenome (<[Z.to_nat index := value]> (data g))).
    split; [apply mutate_byte_explicit_ok; assumption|]. cbn [data].
    split; [apply list_lookup_insert_eq; unfold len in Hin; lia|].
    split; [intros j Hj; apply list_lookup_insert_ne; congruence|].
    unfold len. rewrite length_insert. reflexivity.
  - intros Hbad.
    destruct (decide (0 <= index < len (data g))) as [Hin | Hout].
    + exists ValueError. split; [left; reflexivity|].
      apply mutate_byte_value_error; [assumption|].
      destruct Hbad as [Hv | Hi]; [assumption | contradiction].
    + exists IndexError. split; [right; reflexivity|].
      apply mutate_byte_index_error; assumption.
  - apply mutate_byte_value_error.
  - intros Hout _. apply mutate_byte_index_error; assumption.
Qed.

Lemma mutate_byte_explicit_spec_witness :
  mutate_byte 5 (Some 171) (mkGenome [0; 1; 2; 3; 4; 5; 6; 7; 8; 9], 42)
  = (Ok tt, (mkGenome [0; 1; 2; 3; 4; 171; 6; 7; 8; 9], 42))
  /\ mutate_byte 0 (Some 256) (mkGenome [0; 1; 2; 3; 4; 5; 6; 7; 8; 9], 42)
     = (Raise ValueError, (mkGenome [0; 1; 2; 3; 4; 5; 6; 7; 8; 9], 42)).
Proof.
  split.
  - destruct (mutate_byte_explicit_spec
                (mkGenome [0; 1; 2; 3; 4; 5; 6; 7; 8; 9]) 42 5 171)
      as [Hok _].
    destruct Hok as (g' & Hrun & _).
    + concrete.
    + concrete.
    + rewrite Hrun. vm_compute in Hrun. congruence.
  - destruct (mutate_byte_explicit_spec
                (mkGenome [0; 1; 2; 3; 4; 5; 6; 7; 8; 9]) 42 0 256)
      as (_ & _ & Hval & _).
    apply Hval.
    + concrete.
    + concrete.
Defined.

(** C10. When the index is outside [0, len(data)) and the explicit value
    is outside [0,255] at the same time, [mutate_byte] raises
    [IndexError], not [ValueError]: the index is checked first. The
    buffer is unchanged. *)
Theorem mutate_byte_index_checked_first `{RandomSource R}
    (g : Genome) (r : R) (index value : Z) :
  ~ 0 <= index < len (data g) -> ~ 0 <= value <= 255 ->
  mutate_byte index (Some value) (g, r) = (Raise IndexError, (g, r))
  /\ mutate_byte index (Some value) (g, r) <> (Raise ValueError, (g, r)).
Proof.
  intros Hout _.
  rewrite mutate_byte_index_error by assumption.
  split; [reflexivity | discriminate].
Qed.

Lemma mutate_byte_index_checked_first_witness :
  mutate_byte 10 (Some 300) (mkGenome [0; 1; 2; 3; 4; 5; 6; 7; 8; 9], 42)
  = (Raise IndexError, (mkGenome [0; 1; 2; 3; 4; 5; 6; 7; 8; 9], 42)).
Proof.
  apply (mutate_byte_index_checked_first
           (mkGenome [0; 1; 2; 3; 4; 5; 6; 7; 8; 9]) 42 10 300).
  - concrete.
  - concrete.
Defined.

(** ** gene_decoder.py *)

Lemma decode_simple_attribute_empty (g : Genome) (start length : Z) :
  decode_simple_attribute g start length [] = Ok None.
Proof. reflexivity. Qed.

Lemma decode_simple_attribute_out_of_bounds
    (g : Genome) (start length : Z) (options : list string) :
  ~ in_bounds g start length ->
  decode_simple_attribute g start length options = Ok None.
Proof.
  intros Hout. unfold decode_simple_attribute.
  destruct (truthy options); cbn [negb]; [|reflexivity].
  destruct (get_gene_cases g start length) as [[Hin _] | [_ ->]];
    [contradiction | reflexivity].
Qed.

Lemma decode_simple_attribute_in_bounds
    (g : Genome) (start length : Z) (options : list string) :
  in_bounds g start length -> options <> [] ->
  exists label,
    options !! Z.to_nat (sum (segment g start length) mod len options)
    = Some label
    /\ decode_simple_attribute g start length options = Ok (Some label).
Proof.
  intros Hin Hne. unfold decode_simple_attribute.
  apply truthy_spec in Hne. rewrite Hne. cbn [negb].
  rewrite get_gene_in_bounds, segment_truthy by assumption. cbn [negb].
  assert (0 < len options) as Hpos.
  { pose proof (len_nonneg options). apply truthy_spec in Hne.
    destruct (decide (len options = 0)) as [E|]; [|lia].
    apply len_nil_iff in E. contradiction. }
  destruct (mod_positive (sum (segment g start length)) (len options) Hpos)
    as [-> Hrange].
  cbn [bind].
  destruct (getitem_inside options _ Hrange) as (label & Hlookup & ->).
  exists label. split; [assumption | reflexivity].
Qed.

Lemma decode_interacting_genes_non_positive
    (g : Genome) (s1 l1 s2 l2 max_value : Z) :
  max_value <= 0 ->
  decode_interacting_genes g s1 l1 s2 l2 max_value = Ok None.
Proof.
  intros Hle. unfold decode_interacting_genes.
  destruct (Z.leb_spec max_value 0); [reflexivity | lia].
Qed.

Lemma decode_interacting_genes_out_of_bounds
    (g : Genome) (s1 l1 s2 l2 max_value : Z) :
  ~ in_bounds g s1 l1 \/ ~ in_bounds g s2 l2 ->
  decode_interacting_genes g s1 l1 s2 l2 max_value = Ok None.
Proof.
  intros Hout. unfold decode_interacting_genes.
  destruct (max_value <=? 0); [reflexivity|].
  destruct (get_gene_cases g s1 l1) as [[Hin1 ->] | [_ ->]];
    [|reflexivity].
  destruct (get_gene_cases g s2 l2) as [[Hin2 _] | [_ ->]];
    [|reflexivity].
  destruct Hout; contradiction.
Qed.

Lemma decode_interacting_genes_in_bounds
    (g : Genome) (s1 l1 s2 l2 max_value : Z) :
  in_bounds g s1 l1 -> in_bounds g s2 l2 -> 0 < max_value ->
  decode_interacting_genes g s1 l1 s2 l2 max_value
  = Ok (Some ((sum (segment g s1 l1) * sum (segment g s2 l2))
              mod max_value)).
Proof.
  intros Hin1 Hin2 Hpos. unfold decode_interacting_genes.
  destruct (Z.leb_spec max_value 0); [lia|].
  rewrite !get_gene_in_bounds by assumption. cbn [bind].
  rewrite !segment_truthy by assumption. cbn [negb orb].
  destruct (mod_positive (sum (segment g s1 l1) * sum (segment g s2 l2))
              max_value Hpos) as [-> _].
  reflexivity.
Qed.

(** Whatever the arguments, the decoders return. *)
Lemma decode_simple_attribute_total
    (g : Genome) (start length : Z) (options : list string) :
  exists r, decode_simple_attribute g start length options = Ok r.
Proof.
  destruct options as [|o options]; [exists None; reflexivity|].
  destruct (get_gene_cases g start length) as [[Hin _] | [Hout _]].
  - destruct (decode_simple_attribute_in_bounds g start length
                (o :: options) Hin) as (label & _ & ->);
      [discriminate | eauto].
  - exists None. apply decode_simple_attribute_out_of_bounds; assumption.
Qed.

Lemma decode_interacting_genes_total
    (g : Genome) (s1 l1 s2 l2 max_value : Z) :
  exists r, decode_interacting_genes g s1 l1 s2 l2 max_value = Ok r.
Proof.
  destruct (Z.le_gt_cases max_value 0) as [Hle | Hpos].
  { exists None. apply decode_interacting_genes_non_positive; assumption. }
  destruct (get_gene_cases g s1 l1) as [[Hin1 _] | [Hout1 _]];
    [|exists None; apply decode_interacting_genes_out_of_bounds; auto].
  destruct (get_gene_cases g s2 l2) as [[Hin2 _] | [Hout2 _]];
    [|exists None; apply decode_interacting_genes_out_of_bounds; auto].
  rewrite decode_interacting_genes_in_bounds by assumption. eauto.
Qed.

(** C2. On an in-bounds segment and a non-empty option list,
    [decode_simple_attribute] returns the option at index
    (sum of the segment's bytes) mod (number of options); on the segment
    [0,1,2,3] with five options the sum is 6, 6 mod 5 = 1, and the second
    option is returned. *)
Theorem decode_simple_attribute_spec
    (g : Genome) (start length : Z) (options : list string) :
  in_bounds g start length -> options <> [] ->
  (exists label,
     options !! Z.to_nat (sum (segment g start length) mod len options)
     = Some label
     /\ decode_simple_attribute g start length options = Ok (Some label))
  /\ (forall a b c d e : string,
        options = [a; b; c; d; e] ->
        segment g start length = [0; 1; 2; 3] ->
        sum (segment g start length) = 6
        /\ 6 mod len options = 1
        /\ decode_simple_attribute g start length options = Ok (Some b)).
Proof.
  intros Hin Hne.
  pose proof (decode_simple_attribute_in_bounds g start length options
                Hin Hne) as (label & Hlookup & Hrun).
  split; [exists label; split; assumption|].
  intros a b c d e -> Hseg.
  rewrite Hseg in Hlookup |- *.
  split; [reflexivity|]. split; [reflexivity|].
  rewrite Hrun. change (Some b = Some label) in Hlookup. congruence.
Qed.

Lemma decode_simple_attribute_spec_witness :
  decode_simple_attribute (mkGenome [0; 1; 2; 3; 0; 0; 0; 0]) 0 4
    ["red"; "green"; "blue"; "yellow"; "purple"]%string
  = Ok (Some "green"%string).
Proof.
  destruct (decode_simple_attribute_spec
              (mkGenome [0; 1; 2; 3; 0; 0; 0; 0]) 0 4
              ["red"; "green"; "blue"; "yellow"; "purple"]%string)
    as [_ Hex].
  - concrete.
  - discriminate.
  - apply (Hex "red" "green" "blue" "yellow" "purple")%string;
      reflexivity.
Defined.

(** C3. The two decoders never raise: every call returns a value, and
    it is [None] when the option list is empty, when [max_value <= 0],
    and whenever a segment read raises, whatever the exception. *)
Theorem decoders_never_raise (g : Genome) :
  (forall start length options,
      exists r, decode_simple_attribute g start length options = Ok r)
  /\ (forall s1 l1 s2 l2 max_value,
        exists r,
          decode_interacting_genes g s1 l1 s2 l2 max_value = Ok r)
  /\ (forall start length,
        decode_simple_attribute g start length [] = Ok None)
  /\ (forall s1 l1 s2 l2 max_value,
        max_value <= 0 ->
        decode_interacting_genes g s1 l1 s2 l2 max_value = Ok None)
  /\ (forall start length options e,
        get_gene g start length = Raise e ->
        decode_simple_attribute g start length options = Ok None)
  /\ (forall s1 l1 s2 l2 max_value e,
        get_gene g s1 l1 = Raise e \/ get_gene g s2 l2 = Raise e ->
        decode_interacting_genes g s1 l1 s2 l2 max_value = Ok None).
Proof.
  assert (forall start length e,
             get_gene g start length = Raise e ->
             ~ in_bounds g start length) as Hraise.
  { intros start length e Hr Hin.
    rewrite get_gene_in_bounds in Hr by assumption. discriminate. }
  split; [|split; [|split; [|split; [|split]]]].
  - intros start length options. apply decode_simple_attribute_total.
  - intros s1 l1 s2 l2 max_value. apply decode_interacting_genes_total.
  - intros start length. apply decode_simple_attribute_empty.
  - intros s1 l1 s2 l2 max_value.
    apply decode_interacting_genes_non_positive.
  - intros start length options e Hr.
    apply decode_simple_attribute_out_of_bounds. eapply Hraise; eassumption.
  - intros s1 l1 s2 l2 max_value e [Hr | Hr];
      apply decode_interacting_genes_out_of_bounds;
      [left | right]; eapply Hraise; eassumption.
Qed.

Lemma decoders_never_raise_witness :
  decode_interacting_genes (mkGenome [0; 1; 2]) 0 2 2 2 10 = Ok None
  /\ decode_interacting_genes (mkGenome [0; 1; 2]) 0 1 1 1 (-5) = Ok None.
Proof.
  destruct (decoders_never_raise (mkGenome [0; 1; 2]))
    as (_ & _ & _ & Hmax & _ & Hread).
  split.
  - apply (Hread 0 2 2 2 10 IndexError). right. reflexivity.
  - apply Hmax. lia.
Defined.

(** C4. On two in-bounds segments and [max_value > 0],
    [decode_interacting_genes] returns
    (sum of segment 1) * (sum of segment 2) mod max_value, computed on
    unbounded integers, and the result lies in [0, max_value). *)
Theorem decode_interacting_genes_spec
    (g : Genome) (s1 l1 s2 l2 max_value : Z) :
  in_bounds g s1 l1 -> in_bounds g s2 l2 -> 0 < max_value ->
  exists v,
    decode_interacting_genes g s1 l1 s2 l2 max_value = Ok (Some v)
    /\ v = (sum (segment g s1 l1) * sum (segment g s2 l2)) mod max_value
    /\ 0 <= v < max_value.
Proof.
  intros Hin1 Hin2 Hpos. eexists.
  split; [apply decode_interacting_genes_in_bounds; assumption|].
  split; [reflexivity | apply Z.mod_pos_bound; assumption].
Qed.

Lemma decode_interacting_genes_spec_witness :
  decode_interacting_genes
    (mkGenome (replicate 300 255 ++ replicate 300 255)) 0 300 300 300
    10000000000
  = Ok (Some 5852250000).
Proof.
  destruct (decode_interacting_genes_spec
              (mkGenome (replicate 300 255 ++ replicate 300 255))
              0 300 300 300 10000000000) as (v & Hrun & Hv & _).
  - unfold in_bounds, len. cbn [data]. rewrite length_app, !length_replicate. lia.
  - unfold in_bounds, len. cbn [data]. rewrite length_app, !length_replicate. lia.
  - lia.
  - rewrite Hrun, Hv. vm_compute. reflexivity.
Defined.

(** C5. On two in-bounds segments and [max_value > 0], if the bytes of
    either segment sum to zero then [decode_interacting_genes] returns
    0, whatever the other segment holds. *)
Theorem decode_interacting_genes_zero_sum
    (g : Genome) (s1 l1 s2 l2 max_value : Z) :
  in_bounds g s1 l1 -> in_bounds g s2 l2 -> 0 < max_value ->
  sum (segment g s1 l1) = 0 \/ sum (segment g s2 l2) = 0 ->
  decode_interacting_genes g s1 l1 s2 l2 max_value = Ok (Some 0).
Proof.
  intros Hin1 Hin2 Hpos Hzero.
  rewrite decode_interacting_genes_in_bounds by assumption.
  destruct Hzero as [-> | ->];
    [rewrite Z.mul_0_l | rewrite Z.mul_0_r]; reflexivity.
Qed.

Lemma decode_interacting_genes_zero_sum_witness :
  decode_interacting_genes (mkGenome [255; 0; 7; 9]) 0 1 1 1 50
  = Ok (Some 0).
Proof.
  apply (decode_interacting_genes_zero_sum (mkGenome [255; 0; 7; 9])
           0 1 1 1 50).
  - concrete.
  - concrete.
  - lia.
  - right. reflexivity.
Defined.

(** ** organism.py *)

Lemma MIN_GENOME_SIZE_eq : MIN_GENOME_SIZE = 8.
Proof. reflexivity. Qed.

(** With 8 bytes or more, the three fixed segments are in bounds. *)
Lemma fixed_segments_in_bounds (g : Genome) :
  MIN_GENOME_SIZE <= len_ g ->
  in_bounds g COLOR_GENE_START COLOR_GENE_LENGTH
  /\ in_bounds g SIZE_GENE1_START SIZE_GENE1_LENGTH
  /\ in_bounds g SIZE_GENE2_START SIZE_GENE2_LENGTH.
Proof.
  rewrite MIN_GENOME_SIZE_eq. unfold len_, in_bounds.
  change COLOR_GENE_START with 0. change COLOR_GENE_LENGTH with 4.
  change SIZE_GENE1_START with 4. change SIZE_GENE1_LENGTH with 2.
  change SIZE_GENE2_START with 6. change SIZE_GENE2_LENGTH with 2.
  lia.
Qed.

(** [decode_attributes] on an Organism whose [genome] is a Genome of the
    heap: both entries are written, from what the decoders return. *)
Lemma decode_attributes_run (h : gmap loc Genome) (self : Organism)
    (g : Genome) :
  h !! genome self = Some g ->
  exists color size,
    decode_simple_attribute g COLOR_GENE_START COLOR_GENE_LENGTH
      COLOR_OPTIONS = Ok color
    /\ decode_interacting_genes g SIZE_GENE1_START SIZE_GENE1_LENGTH
         SIZE_GENE2_START SIZE_GENE2_LENGTH SIZE_MAX_VALUE = Ok size
    /\ decode_attributes h self
       = (Ok tt,
          mkOrganism (genome self)
            (<["size"%string := of_number size]>
               (<["color"%string := of_label color]> (attributes self)))).
Proof.
  intros Hg.
  destruct (decode_simple_attribute_total g COLOR_GENE_START
              COLOR_GENE_LENGTH COLOR_OPTIONS) as [color Hc].
  destruct (decode_interacting_genes_total g SIZE_GENE1_START
              SIZE_GENE1_LENGTH SIZE_GENE2_START SIZE_GENE2_LENGTH
              SIZE_MAX_VALUE) as [size Hs].
  exists color, size. split; [assumption|]. split; [assumption|].
  unfold decode_attributes, mbind, get, lift, set_attribute, the_genome.
  cbn [genome attributes]. rewrite Hg, Hc, Hs. reflexivity.
Qed.

(** On a Genome of 8 bytes or more both attributes are decoded. *)
Lemma decode_attributes_defined (h : gmap loc Genome) (self : Organism)
    (g : Genome) :
  h !! genome self = Some g -> MIN_GENOME_SIZE <= len_ g ->
  exists label v,
    0 <= v < SIZE_MAX_VALUE
    /\ decode_attributes h self
       = (Ok tt,
          mkOrganism (genome self)
            (<["size"%string := VInt v]>
               (<["color"%string := VStr label]> (attributes self)))).
Proof.
  intros Hg Hlen.
  destruct (fixed_segments_in_bounds g Hlen) as (Hc & H1 & H2).
  destruct (decode_attributes_run h self g Hg)
    as (color & size & Hcolor & Hsize & ->).
  destruct (decode_simple_attribute_in_bounds g _ _ COLOR_OPTIONS Hc)
    as (label & _ & Hcolor'); [discriminate|].
  rewrite decode_interacting_genes_in_bounds in Hsize
    by (first [assumption | reflexivity]).
  rewrite Hcolor' in Hcolor.
  injection Hcolor as <-. injection Hsize as <-.
  eexists _, _. split; [|reflexivity].
  apply Z.mod_pos_bound. reflexivity.
Qed.

Section organism_facts.
Context {R : Type} `{RandomSource R} `{Platform}.
Implicit Types (w : @World R) (l : loc) (g : Genome).

(** A supplied Genome that is too small: [ValueError], and nothing
    has been touched. *)
Lemma init_supplied_too_small w l g (genome_size : Z) :
  heap w !! l = Some g -> len_ g < MIN_GENOME_SIZE ->
  init genome_size (Some l) w = (Raise ValueError, w).
Proof.
  intros Hl Hsmall. unfold init, mbind, get, as_Genome. rewrite Hl.
  destruct (Z.ltb_spec (len_ g) MIN_GENOME_SIZE); [reflexivity | lia].
Qed.

(** A supplied Genome that is large enough becomes [self.genome]; the
    attributes are those [decode_attributes] computes from it. *)
Lemma init_supplied_large_enough w l g (genome_size : Z) :
  heap w !! l = Some g -> MIN_GENOME_SIZE <= len_ g ->
  exists self',
    decode_attributes (heap w) (mkOrganism l ∅) = (Ok tt, self')
    /\ genome self' = l
    /\ init genome_size (Some l) w = (Ok self', w).
Proof.
  intros Hl Hlarge.
  destruct (decode_attributes_run (heap w) (mkOrganism l ∅) g Hl)
    as (color & size & _ & _ & Hrun).
  cbn [genome attributes] in Hrun.
  exists (mkOrganism l
            (<["size"%string := of_number size]>
               (<["color"%string := of_label color]> ∅))).
  split; [exact Hrun|]. split; [reflexivity|].
  unfold init, mbind, get, as_Genome, ret. rewrite Hl.
  destruct (Z.ltb_spec (len_ g) MIN_GENOME_SIZE); [lia|].
  rewrite Hrun. reflexivity.
Qed.

(** [Genome(size=n)] for [n >= 0]: whatever [os.urandom] raises is
    passed on; otherwise the new object is stored at a reference that
    was not in use. *)
Lemma new_Genome_unfold w (size : Z) :
  0 <= size ->
  new_Genome size w
  = match urandom size (entropy w) with
    | (Ok bs, r') =>
        (Ok (fresh (dom (heap w))),
         mkWorld (<[fresh (dom (heap w)) := mkGenome bs]> (heap w)) r'
           (stdout w))
    | (Raise e, r') => (Raise e, mkWorld (heap w) r' (stdout w))
    end.
Proof.
  intros Hsize. unfold new_Genome, genome_py.init, mbind, ret.
  destruct (Z.ltb_spec size 0); [lia|].
  destruct (urandom size (entropy w)) as [[bs|e] r']; reflexivity.
Qed.

(** The warning is built unless the requested size has more digits
    than the interpreter converts. *)
Lemma format_size_warning_cases (genome_size : Z) :
  (0 < int_max_str_digits < decimal_digits genome_size
   /\ format_size_warning genome_size = Raise ValueError)
  \/ (~ 0 < int_max_str_digits < decimal_digits genome_size
      /\ format_size_warning genome_size = Ok (size_warning genome_size)).
Proof.
  unfold format_size_warning.
  destruct (str_int_cases genome_size) as [[Hlim ->] | [Hok ->]];
    [left; auto|].
  right. split; [assumption|]. cbn [bind].
  rewrite (str_int_one_digit MIN_GENOME_SIZE) by (vm_compute; reflexivity).
  reflexivity.
Qed.

(** Once the size is settled: the Genome is created and decoded. *)
Lemma init_tail_cases w1 (size : Z) (k : loc -> M World Organism) :
  0 <= size ->
  (forall l w2, k l w2
     = match decode_attributes (heap w2) (mkOrganism l ∅) with
       | (Ok _, self') => (Ok self', w2)
       | (Raise e, _) => (Raise e, w2)
       end) ->
  (exists e,
      urandom size (entropy w1) = (Raise e, entropy w1)
      /\ (e = OverflowError \/ e = MemoryError)
      /\ mbind (new_Genome size) k w1 = (Raise e, w1))
  \/ (exists bs r' self',
        urandom size (entropy w1) = (Ok bs, r')
        /\ heap w1 !! fresh (dom (heap w1)) = None
        /\ len bs = size /\ is_bytes bs
        /\ genome self' = fresh (dom (heap w1))
        /\ decode_attributes
             (<[fresh (dom (heap w1)) := mkGenome bs]> (heap w1))
             (mkOrganism (fresh (dom (heap w1))) ∅) = (Ok tt, self')
        /\ mbind (new_Genome size) k w1
           = (Ok self',
              mkWorld (<[fresh (dom (heap w1)) := mkGenome bs]> (heap w1))
                r' (stdout w1))).
Proof.
  intros Hsize Hk. unfold mbind. rewrite new_Genome_unfold by assumption.
  destruct (urandom_cases size (entropy w1) Hsize)
    as [[_ E] | [(_ & f & _ & E) | (_ & _ & bs & r' & E & Hlen & Hb & _)]];
    rewrite E.
  - left. exists OverflowError. destruct w1; cbn. auto.
  - left. exists (alloc_exn f). destruct w1; cbn.
    split; [reflexivity|]. split; [destruct f; auto | reflexivity].
  - right. set (l := fresh (dom (heap w1))).
    destruct (decode_attributes_run (<[l := mkGenome bs]> (heap w1))
                (mkOrganism l ∅) (mkGenome bs))
      as (color & sz & _ & _ & Hrun).
    { cbn [genome]. apply lookup_insert_eq. }
    cbn [genome attributes] in Hrun.
    eexists bs, r', (mkOrganism l _).
    split; [reflexivity|].
    split; [apply not_elem_of_dom, is_fresh|].
    split; [assumption|]. split; [assumption|].
    split; [reflexivity|]. split; [exact Hrun|].
    rewrite Hk. cbn [heap]. rewrite Hrun. reflexivity.
Qed.

(** Construction without a usable [genome_instance], step by step. *)
Lemma init_without_genome_unfold w (genome_size : Z)
    (genome_instance : option loc) :
  as_Genome (heap w) genome_instance = None ->
  init genome_size genome_instance w
  = let k := fun (l : loc) (w2 : World) =>
               match decode_attributes (heap w2) (mkOrganism l ∅) with
               | (Ok _, self') => (Ok self', w2)
               | (Raise e, _) => (Raise e, w2)
               end in
    if genome_size <? MIN_GENOME_SIZE
    then
      match format_size_warning genome_size with
      | Raise e => (Raise e, w)
      | Ok line =>
          mbind (new_Genome MIN_GENOME_SIZE) k
            (mkWorld (heap w) (entropy w) (stdout w ++ [line]))
      end
    else mbind (new_Genome genome_size) k w.
Proof.
  intros Hnone. unfold init, mbind, get, lift, print, ret, raise.
  rewrite Hnone. cbv zeta.
  destruct (genome_size <? MIN_GENOME_SIZE).
  - destruct (format_size_warning genome_size) as [line|e]; [|reflexivity].
    destruct (new_Genome MIN_GENOME_SIZE _) as [[l|e] w2]; [|reflexivity].
    destruct (decode_attributes (heap w2) _) as [[[]|e] s]; reflexivity.
  - destruct (new_Genome genome_size w) as [[l|e] w2]; [|reflexivity].
    destruct (decode_attributes (heap w2) _) as [[[]|e] s]; reflexivity.
Qed.

(** Construction without a usable [genome_instance], in full: either
    the warning cannot be built and nothing has happened; or the size
    is raised to the minimum (with a warning line) and then either
    [os.urandom] raises, or a new Genome is created and decoded. *)
Lemma init_without_genome_cases w (genome_size : Z)
    (genome_instance : option loc) :
  as_Genome (heap w) genome_instance = None ->
  (genome_size < MIN_GENOME_SIZE
   /\ 0 < int_max_str_digits < decimal_digits genome_size
   /\ init genome_size genome_instance w = (Raise ValueError, w))
  \/ ((genome_size < MIN_GENOME_SIZE ->
       ~ 0 < int_max_str_digits < decimal_digits genome_size)
      /\ exists out,
           out = stdout w ++
                 (if genome_size <? MIN_GENOME_SIZE
                  then [size_warning genome_size] else [])
           /\ ((exists e,
                   urandom (Z.max genome_size MIN_GENOME_SIZE) (entropy w)
                   = (Raise e, entropy w)
                   /\ (e = OverflowError \/ e = MemoryError)
                   /\ init genome_size genome_instance w
                      = (Raise e, mkWorld (heap w) (entropy w) out))
               \/ (exists bs r' self',
                     urandom (Z.max genome_size MIN_GENOME_SIZE) (entropy w)
                     = (Ok bs, r')
                     /\ heap w !! fresh (dom (heap w)) = None
                     /\ len bs = Z.max genome_size MIN_GENOME_SIZE
                     /\ is_bytes bs
                     /\ genome self' = fresh (dom (heap w))
                     /\ decode_attributes
                          (<[fresh (dom (heap w)) := mkGenome bs]> (heap w))
                          (mkOrganism (fresh (dom (heap w))) ∅)
                        = (Ok tt, self')
                     /\ init genome_size genome_instance w
                        = (Ok self',
                           mkWorld
                             (<[fresh (dom (heap w)) := mkGenome bs]> (heap w))
                             r' out)))).
Proof.
  intros Hnone. rewrite !init_without_genome_unfold by assumption.
  cbv zeta.
  destruct (Z.ltb_spec genome_size MIN_GENOME_SIZE) as [Hlt | Hge].
  - destruct (format_size_warning_cases genome_size)
      as [[Hlim ->] | [Hok ->]].
    + left. auto.
    + right. split; [auto|]. eexists. split; [reflexivity|].
      rewrite Z.max_r by lia.
      match goal with
      | |- context [mbind (new_Genome ?size) ?k ?w1] =>
          destruct (init_tail_cases w1 size k) as
            [(e & Hu & He & ->)
            | (bs & r' & self' & Hu & Hf & Hl & Hb & Hg & Hd & ->)]
      end; try (rewrite MIN_GENOME_SIZE_eq; lia); try reflexivity.
      * left. exists e. cbn [heap entropy stdout] in *. auto.
      * right. exists bs, r', self'. cbn [heap entropy stdout] in *.
        repeat (split; [assumption|]). reflexivity.
  - right. split; [lia|]. eexists. split; [reflexivity|].
    rewrite Z.max_l by lia. rewrite app_nil_r.
    match goal with
    | |- context [mbind (new_Genome ?size) ?k ?w1] =>
        destruct (init_tail_cases w1 size k) as
          [(e & Hu & He & ->)
          | (bs & r' & self' & Hu & Hf & Hl & Hb & Hg & Hd & ->)]
    end; try (rewrite MIN_GENOME_SIZE_eq in Hge; lia); try reflexivity.
    + left. exists e. destruct w; cbn [heap entropy stdout] in *. auto.
    + right. exists bs, r', self'. cbn [heap entropy stdout] in *.
      repeat (split; [assumption|]). reflexivity.
Qed.

End organism_facts.

(** C7. A supplied Genome shorter than the minimum length 8 makes the
    construction of an Organism raise [ValueError]: nothing is adjusted
    and no Organism results; a supplied Genome of length 8 or more
    becomes the Organism's genome, the very object the caller passed. *)
Theorem init_with_supplied_genome `{RandomSource R} `{Platform}
    (w : @World R) (l : loc) (g : Genome) (genome_size : Z) :
  heap w !! l = Some g ->
  (len_ g < 8 -> init genome_size (Some l) w = (Raise ValueError, w))
  /\ (8 <= len_ g ->
      exists org,
        init genome_size (Some l) w = (Ok org, w)
        /\ genome org = l
        /\ heap w !! genome org = Some g).
Proof.
  intros Hl. split.
  - intros Hsmall. eapply init_supplied_too_small; eassumption.
  - intros Hlarge.
    destruct (init_supplied_large_enough w l g genome_size Hl Hlarge)
      as (org & _ & Hgen & Hrun).
    exists org. rewrite Hgen. auto.
Qed.

Lemma init_with_supplied_genome_witness :
  init 1024 (Some 1%positive)
    (mkWorld {[ 1%positive := mkGenome [1; 2; 3] ]} 42 [])
  = (Raise ValueError,
     mkWorld {[ 1%positive := mkGenome [1; 2; 3] ]} 42 []).
Proof.
  destruct (init_with_supplied_genome
              (mkWorld {[ 1%positive := mkGenome [1; 2; 3] ]} 42 [])
              1%positive (mkGenome [1; 2; 3]) 1024) as [Hsmall _].
  - reflexivity.
  - apply Hsmall. cbv [len_ len data length]. lia.
Defined.




(** C9. The Organism built on the supplied genome bytes
    [0,1,2,3,10,11,20,21] has the attributes color = "pink" and
    size = 61, and nothing else: the color segment sums to 6, 6 mod 10
    selects the seventh of the ten labels; the size segments sum to 21
    and 41, 21 * 41 = 861 and 861 mod 100 = 61. *)
Theorem init_scenario_pink_61 `{RandomSource R} `{Platform}
    (w : @World R) (l : loc) (genome_size : Z) :
  let g := mkGenome [0; 1; 2; 3; 10; 11; 20; 21] in
  heap w !! l = Some g ->
  (exists org,
     init genome_size (Some l) w = (Ok org, w)
     /\ attributes org
        = {[ "color"%string := VStr "pink"; "size"%string := VInt 61 ]})
  /\ sum (segment g COLOR_GENE_START COLOR_GENE_LENGTH) = 6
  /\ len COLOR_OPTIONS = 10
  /\ 6 mod 10 = 6
  /\ COLOR_OPTIONS !! 6%nat = Some "pink"%string
  /\ sum (segment g SIZE_GENE1_START SIZE_GENE1_LENGTH) = 21
  /\ sum (segment g SIZE_GENE2_START SIZE_GENE2_LENGTH) = 41
  /\ 21 * 41 = 861
  /\ 861 mod SIZE_MAX_VALUE = 61.
Proof.
  intros g Hl. split; [|repeat split].
  destruct (init_supplied_large_enough w l g genome_size Hl)
    as (org & Hdec & _ & Hrun).
  { cbv [len_ len data length g]. rewrite MIN_GENOME_SIZE_eq. lia. }
  exists org. split; [exact Hrun|].
  destruct (decode_attributes_run (heap w) (mkOrganism l ∅) g Hl)
    as (color & size & Hcolor & Hsize & Hdec').
  rewrite Hdec' in Hdec. injection Hdec as <-. cbn [attributes].
  vm_compute in Hcolor, Hsize.
  injection Hcolor as <-. injection Hsize as <-.
  cbn [of_label of_number].
  rewrite insert_empty. apply insert_insert_ne. discriminate.
Qed.

Lemma init_scenario_pink_61_witness :
  exists org,
    init 1024 (Some 1%positive)
      (mkWorld {[ 1%positive := mkGenome [0; 1; 2; 3; 10; 11; 20; 21] ]}
         42 [])
    = (Ok org,
       mkWorld {[ 1%positive := mkGenome [0; 1; 2; 3; 10; 11; 20; 21] ]}
         42 [])
    /\ attributes org !! "color"%string = Some (VStr "pink")
    /\ attributes org !! "size"%string = Some (VInt 61).
Proof.
  destruct (init_scenario_pink_61
              (mkWorld
                 {[ 1%positive := mkGenome [0; 1; 2; 3; 10; 11; 20; 21] ]}
                 42 [])
              1%positive 1024) as [(org & Hrun & Hattr) _].
  - reflexivity.
  - exists org. split; [exact Hrun|]. rewrite Hattr. split; reflexivity.
Defined.

(** ** Further facts on lists and sums *)

Lemma take_plus {A} (l : list A) (n m : nat) :
  take (n + m) l = take n l ++ take m (drop n l).
Proof.
  revert l. induction n as [|n IH]; intros [|x l]; cbn;
    rewrite ?take_nil; try reflexivity.
  f_equal. apply IH.
Qed.

Lemma sum_app (xs ys : list Z) : sum (xs ++ ys) = sum xs + sum ys.
Proof.
  induction xs as [|x xs IH]; [reflexivity|].
  change ((x :: xs) ++ ys) with (x :: (xs ++ ys)).
  rewrite !sum_cons, IH. lia.
Qed.

Lemma sum_insert (xs : list Z) (i : nat) (old v : Z) :
  xs !! i = Some old -> sum (<[i := v]> xs) = sum xs - old + v.
Proof.
  revert i. induction xs as [|x xs IH]; intros [|i] Hi; try discriminate.
  - injection Hi as ->. cbn [insert list_insert]. rewrite !sum_cons. lia.
  - change (<[S i := v]> (x :: xs)) with (x :: <[i := v]> xs).
    rewrite !sum_cons, (IH i Hi). lia.
Qed.

Lemma sum_Permutation (xs ys : list Z) : xs ≡ₚ ys -> sum xs = sum ys.
Proof.
  induction 1 as [|x xs ys _ IH|x y xs|xs ys zs _ IH1 _ IH2].
  - reflexivity.
  - rewrite !sum_cons, IH. reflexivity.
  - rewrite !sum_cons. lia.
  - congruence.
Qed.

Lemma sum_bytes_upper (xs : list Z) : is_bytes xs -> sum xs <= 255 * len xs.
Proof.
  induction 1 as [|x xs Hx _ IH]; [unfold sum, len; cbn; lia|].
  rewrite sum_cons. unfold len in *. cbn [length]. lia.
Qed.

Lemma is_bytes_segment (g : Genome) (start length : Z) :
  is_bytes (data g) -> is_bytes (segment g start length).
Proof.
  intros Hg. unfold segment, is_bytes.
  apply Forall_take, Forall_drop. exact Hg.
Qed.

(** A segment read of a buffer in which one position was overwritten. *)
Lemma segment_insert (d : list Z) (i : nat) (v start length : Z) :
  0 <= start ->
  segment (mkGenome (<[i := v]> d)) start length
  = if decide (start <= Z.of_nat i < start + length)
    then <[(i - Z.to_nat start)%nat := v]>
           (segment (mkGenome d) start length)
    else segment (mkGenome d) start length.
Proof.
  intros Hs. unfold segment. cbn [data].
  destruct (decide (start <= Z.of_nat i < start + length)) as [Hin | Hout].
  - rewrite drop_insert_ge by lia. rewrite take_insert_lt by lia.
    reflexivity.
  - destruct (decide (Z.of_nat i < start)) as [Hlt | Hge].
    + rewrite drop_insert_lt by lia. reflexivity.
    + rewrite drop_insert_ge by lia. rewrite take_insert_ge by lia.
      reflexivity.
Qed.

Lemma in_bounds_insert (d : list Z) (i : nat) (v start length : Z) :
  in_bounds (mkGenome (<[i := v]> d)) start length
  <-> in_bounds (mkGenome d) start length.
Proof. unfold in_bounds, len. cbn [data]. rewrite length_insert. tauto. Qed.

Lemma get_gene_ok_inv (g : Genome) (start length : Z) (seg : list Z) :
  get_gene g start length = Ok seg ->
  in_bounds g start length /\ seg = segment g start length.
Proof.
  intros Hget.
  destruct (get_gene_cases g start length) as [[Hin Hok] | [_ Hr]];
    [|congruence].
  split; [assumption | congruence].
Qed.

(** ** genome.py: construction *)

(** X1. [Genome(size)] without data: for [size < 0] it raises
    [ValueError]; for [size >= 0] it yields exactly [size] random bytes
    when [os.urandom] obtains them, and otherwise passes on what
    [os.urandom] raises, [OverflowError] for a size beyond
    [sys.maxsize] and the allocation failure for a block that cannot be
    had. Nothing is drawn when it raises. With data the buffer is the
    data as given, the size is not looked at and nothing is drawn. *)
Theorem genome_init_spec `{RandomSource R} `{Platform} (size : Z) (r : R) :
  (0 <= size <= maxsize -> bytes_alloc size = None ->
   exists g r',
     genome_py.init size None r = (Ok g, r')
     /\ len_ g = size
     /\ is_bytes (data g)
     /\ (size = 0 -> r' = r))
  /\ (0 <= size -> maxsize < size ->
      genome_py.init size None r = (Raise OverflowError, r))
  /\ (0 <= size <= maxsize ->
      forall f, bytes_alloc size = Some f ->
                genome_py.init size None r = (Raise (alloc_exn f), r))
  /\ (size < 0 -> genome_py.init size None r = (Raise ValueError, r))
  /\ (forall d, genome_py.init size (Some d) r = (Ok (mkGenome d), r)).
Proof.
  assert (0 <= size ->
          genome_py.init size None r
          = match urandom size r with
            | (Ok bs, r') => (Ok (mkGenome bs), r')
            | (Raise e, r') => (Raise e, r')
            end) as Hinit.
  { intros Hsize. unfold genome_py.init, mbind, ret.
    destruct (Z.ltb_spec size 0); [lia|].
    destruct (urandom size r) as [[bs|e] r']; reflexivity. }
  split; [|split; [|split; [|split]]].
  - intros [Hsize Hfit] Halloc. rewrite Hinit by assumption.
    destruct (urandom_cases size r Hsize)
      as [[? _] | [(_ & f & Hf & _)
                  | (_ & _ & bs & r' & -> & Hlen & Hb & Hzero)]];
      [lia | congruence |].
    exists (mkGenome bs), r'. unfold len_. cbn [data]. auto.
  - intros Hsize Hbig. rewrite Hinit by assumption.
    destruct (urandom_cases size r Hsize)
      as [[_ ->] | [(? & _) | (? & _)]]; [reflexivity | lia | lia].
  - intros [Hsize Hfit] f Hf. rewrite Hinit by assumption.
    destruct (urandom_cases size r Hsize)
      as [[? _] | [(_ & f' & Hf' & ->) | (_ & Hnone & _)]];
      [lia | | congruence].
    congruence.
  - intros Hneg. unfold genome_py.init.
    destruct (Z.ltb_spec size 0); [reflexivity | lia].
  - reflexivity.
Qed.

Lemma genome_init_spec_witness :
  (exists g r', genome_py.init 100 None 42 = (Ok g, r') /\ len_ g = 100)
  /\ genome_py.init (2 ^ 63) None 42 = (Raise OverflowError, 42)
  /\ genome_py.init (2 ^ 40) None 42 = (Raise MemoryError, 42)
  /\ genome_py.init (-10) None 42 = (Raise ValueError, 42).
Proof.
  split; [|split; [|split]].
  - destruct (genome_init_spec 100 42) as [Hok _].
    destruct Hok as (g & r' & Hrun & Hlen & _); [concrete | reflexivity|].
    exists g, r'. split; assumption.
  - destruct (genome_init_spec (2 ^ 63) 42) as (_ & Hbig & _).
    apply Hbig; concrete.
  - destruct (genome_init_spec (2 ^ 40) 42) as (_ & _ & Hmem & _).
    apply (Hmem ltac:(concrete) NoMemory). reflexivity.
  - destruct (genome_init_spec (-10) 42) as (_ & _ & _ & Hneg & _).
    apply Hneg. lia.
Defined.

(** ** genome.py: more on segment reads *)

(** X2. Reading [len(data)] bytes from position 0 returns the whole
    buffer when it is not empty; on an empty buffer every read raises
    [IndexError]. *)
Theorem get_gene_whole_buffer (g : Genome) :
  (data g <> [] -> get_gene g 0 (len_ g) = Ok (data g))
  /\ (data g = [] ->
      forall start length, get_gene g start length = Raise IndexError).
Proof.
  split.
  - intros Hne.
    assert (0 < len (data g)) as Hpos.
    { pose proof (len_nonneg (data g)).
      destruct (decide (len (data g) = 0)) as [E|]; [|lia].
      apply len_nil_iff in E. contradiction. }
    rewrite get_gene_in_bounds by (unfold in_bounds, len_; lia).
    unfold segment, len_, len. rewrite Nat2Z.id.
    change (Z.to_nat 0) with 0%nat. rewrite drop_0.
    rewrite take_ge by reflexivity. reflexivity.
  - intros Hnil start length. apply get_gene_out_of_bounds.
    rewrite Hnil. unfold len. cbn [List.length]. lia.
Qed.

Lemma get_gene_whole_buffer_witness :
  get_gene (mkGenome [0; 1; 2; 3; 4]) 0 5 = Ok [0; 1; 2; 3; 4]
  /\ get_gene (mkGenome []) 0 1 = Raise IndexError.
Proof.
  split.
  - destruct (get_gene_whole_buffer (mkGenome [0; 1; 2; 3; 4])) as [Hall _].
    apply Hall. discriminate.
  - destruct (get_gene_whole_buffer (mkGenome [])) as [_ Hnone].
    apply Hnone. reflexivity.
Defined.

(** X3. Two reads of adjacent segments concatenate to the read of the
    joined segment, and a read of a segment splits at any inner point
    into the reads of its two parts. *)
Theorem get_gene_adjacent (g : Genome) (start a b : Z) :
  (forall x y,
      get_gene g start a = Ok x -> get_gene g (start + a) b = Ok y ->
      get_gene g start (a + b) = Ok (x ++ y))
  /\ (forall z,
        get_gene g start (a + b) = Ok z -> 0 < a -> 0 < b ->
        get_gene g start a = Ok (take (Z.to_nat a) z)
        /\ get_gene g (start + a) b = Ok (drop (Z.to_nat a) z)).
Proof.
  assert (0 <= start -> 0 < a -> 0 < b ->
          segment g start (a + b)
          = segment g start a ++ segment g (start + a) b) as Hjoin.
  { intros Hs Ha Hb. unfold segment.
    rewrite !Z2Nat.inj_add by lia. rewrite take_plus, drop_drop.
    reflexivity. }
  split.
  - intros x y Hx Hy.
    apply get_gene_ok_inv in Hx as [Hin1 ->].
    apply get_gene_ok_inv in Hy as [Hin2 ->].
    unfold in_bounds in Hin1, Hin2.
    rewrite get_gene_in_bounds by (unfold in_bounds; lia).
    rewrite Hjoin by lia. reflexivity.
  - intros z Hz Ha Hb.
    apply get_gene_ok_inv in Hz as [Hin ->]. unfold in_bounds in Hin.
    rewrite !get_gene_in_bounds by (unfold in_bounds; lia).
    rewrite Hjoin by lia.
    assert (List.length (segment g start a) = Z.to_nat a) as Hlen.
    { pose proof (segment_length g start a) as Hl. unfold len in Hl.
      specialize (Hl ltac:(unfold in_bounds; lia)). lia. }
    rewrite <- Hlen.
    rewrite take_app_length, drop_app_length. split; reflexivity.
Qed.

Lemma get_gene_adjacent_witness :
  get_gene (mkGenome [0; 1; 2; 3; 10; 11; 20; 21]) 4 4
  = Ok ([10; 11] ++ [20; 21]).
Proof.
  destruct (get_gene_adjacent (mkGenome [0; 1; 2; 3; 10; 11; 20; 21]) 4 2 2)
    as [Hjoin _].
  apply Hjoin; reflexivity.
Defined.

(** X4. On a buffer of bytes every segment that is read is made of
    bytes, and its sum lies between 0 and 255 times its length. *)
Theorem get_gene_sum_bounds (g : Genome) (start length : Z) (seg : list Z) :
  is_bytes (data g) -> get_gene g start length = Ok seg ->
  is_bytes seg /\ 0 <= sum seg <= 255 * length.
Proof.
  intros Hg Hget. apply get_gene_ok_inv in Hget as [Hin ->].
  pose proof (is_bytes_segment g start length Hg) as Hseg.
  split; [assumption|].
  pose proof (sum_bytes_nonneg _ Hseg). pose proof (sum_bytes_upper _ Hseg).
  rewrite segment_length in * by assumption. lia.
Qed.

Lemma get_gene_sum_bounds_witness :
  0 <= sum [255; 255; 255] <= 255 * 3.
Proof.
  apply (get_gene_sum_bounds (mkGenome [7; 255; 255; 255; 9]) 1 3).
  - repeat constructor; lia.
  - reflexivity.
Defined.

(** ** genome.py: writes, and reads after writes *)

(** What a successful [mutate_byte] has done. *)
Lemma mutate_byte_ok_inv `{RandomSource R} (g g' : Genome) (r r' : R)
    (index : Z) (new_byte_value : option Z) :
  mutate_byte index new_byte_value (g, r) = (Ok tt, (g', r')) ->
  0 <= index < len (data g)
  /\ exists v,
       0 <= v <= 255
       /\ data g' = <[Z.to_nat index := v]> (data g)
       /\ match new_byte_value with
          | Some x => v = x /\ r' = r
          | None => next_byte r = (v, r')
          end.
Proof.
  intros Hrun.
  destruct (decide (0 <= index < len (data g))) as [Hin | Hout];
    [|rewrite mutate_byte_index_error in Hrun by assumption; discriminate].
  split; [assumption|].
  destruct new_byte_value as [x|].
  - destruct (decide (0 <= x <= 255)) as [Hx | Hx];
      [|rewrite mutate_byte_value_error in Hrun by assumption; discriminate].
    rewrite mutate_byte_explicit_ok in Hrun by assumption.
    injection Hrun as <- <-. exists x. cbn [data]. auto.
  - rewrite mutate_byte_random_ok in Hrun by assumption.
    injection Hrun as <- <-. exists (fst (next_byte r)). cbn [data].
    split; [apply next_byte_range|]. split; [reflexivity|].
    destruct (next_byte r); reflexivity.
Qed.

(** Reads after a successful write, in terms of the stored byte. *)
Lemma get_gene_after_insert (g g' : Genome) (index v start length : Z) :
  0 <= index ->
  data g' = <[Z.to_nat index := v]> (data g) ->
  get_gene g' start length
  = match get_gene g start length with
    | Ok seg =>
        Ok (if decide (start <= index < start + length)
            then <[Z.to_nat (index - start) := v]> seg
            else seg)
    | Raise e => Raise e
    end.
Proof.
  intros Hidx Hdata.
  assert (in_bounds g' start length <-> in_bounds g start length) as Hiff.
  { destruct g as [d], g' as [d']. cbn [data] in Hdata. subst d'.
    apply in_bounds_insert. }
  destruct (get_gene_cases g start length) as [[Hin ->] | [Hout ->]].
  - rewrite get_gene_in_bounds by (apply Hiff; assumption).
    f_equal. destruct g as [d], g' as [d']. cbn [data] in Hdata. subst d'.
    unfold in_bounds in Hin.
    rewrite segment_insert by lia. rewrite Z2Nat.id by lia.
    destruct (decide (start <= index < start + length)); [|reflexivity].
    rewrite Z2Nat.inj_sub by lia. reflexivity.
  - destruct (get_gene_cases g' start length) as [[Hin' _] | [_ ->]];
      [|reflexivity].
    apply Hiff in Hin'. contradiction.
Qed.

(** X5. [mutate_byte] without a value: at an index inside the buffer
    one byte is drawn from the random source and stored there, the other
    bytes and the length stay; at an index outside the buffer
    [IndexError] is raised, nothing is drawn and nothing changes. *)
Theorem mutate_byte_random_spec `{RandomSource R}
    (g : Genome) (r : R) (index : Z) :
  (0 <= index < len (data g) ->
   exists b r' g',
     next_byte r = (b, r')
     /\ 0 <= b <= 255
     /\ mutate_byte index None (g, r) = (Ok tt, (g', r'))
     /\ data g' !! Z.to_nat index = Some b
     /\ (forall j : nat, j <> Z.to_nat index -> data g' !! j = data g !! j)
     /\ len (data g') = len (data g))
  /\ (~ 0 <= index < len (data g) ->
      mutate_byte index None (g, r) = (Raise IndexError, (g, r))).
Proof.
  split; [|apply mutate_byte_index_error].
  intros Hin. pose proof (next_byte_range r) as Hb.
  rewrite mutate_byte_random_ok by assumption.
  destruct (next_byte r) as [b r']. cbn [fst snd] in *.
  exists b, r', (mkGenome (<[Z.to_nat index := b]> (data g))). cbn [data].
  split; [reflexivity|]. split; [assumption|]. split; [reflexivity|].
  split; [apply list_lookup_insert_eq; unfold len in Hin; lia|].
  split; [intros j Hj; apply list_lookup_insert_ne; congruence|].
  unfold len. rewrite length_insert. reflexivity.
Qed.

Lemma mutate_byte_random_spec_witness :
  (exists g', mutate_byte 5 None (mkGenome [0; 1; 2; 3; 4; 5; 6; 7], 42)
              = (Ok tt, (g', 29)) /\ len_ g' = 8)
  /\ mutate_byte 10 None (mkGenome [0; 1; 2], 42)
     = (Raise IndexError, (mkGenome [0; 1; 2], 42)).
Proof.
  split.
  - destruct (mutate_byte_random_spec
                (mkGenome [0; 1; 2; 3; 4; 5; 6; 7]) 42 5) as [Hok _].
    destruct Hok as (b & r' & g' & Hdraw & _ & Hrun & _ & _ & Hlen);
      [concrete|].
    injection Hdraw as <- <-. exists g'. split; [exact Hrun | exact Hlen].
  - destruct (mutate_byte_random_spec (mkGenome [0; 1; 2]) 42 10)
      as [_ Hout].
    apply Hout. concrete.
Defined.

Lemma mutate_byte_preserves_witness :
  is_bytes (data (fst (snd (mutate_byte 1 (Some 300)
                              (mkGenome [7; 8; 9], 42)))))
  /\ len (data (fst (snd (mutate_byte 1 (Some 300)
                            (mkGenome [7; 8; 9], 42))))) = 3.
Proof.
  apply (mutate_byte_preserves (mkGenome [7; 8; 9]) 42 1 (Some 300)).
  repeat constructor; lia.
Defined.

(** X7. After a successful write at [index], a read raises exactly when
    it raised before; a segment that does not contain [index] reads as
    before, and one that contains it reads as before except at position
    [index - start], which holds the byte that was written. *)
Theorem get_gene_after_mutate_byte `{RandomSource R}
    (g g' : Genome) (r r' : R) (index : Z) (new_byte_value : option Z)
    (start length : Z) :
  mutate_byte index new_byte_value (g, r) = (Ok tt, (g', r')) ->
  exists v,
    data g' !! Z.to_nat index = Some v
    /\ (forall x, new_byte_value = Some x -> v = x)
    /\ get_gene g' start length
       = match get_gene g start length with
         | Ok seg =>
             Ok (if decide (start <= index < start + length)
                 then <[Z.to_nat (index - start) := v]> seg
                 else seg)
         | Raise e => Raise e
         end.
Proof.
  intros Hrun.
  apply mutate_byte_ok_inv in Hrun as (Hin & v & _ & Hdata & Hv).
  exists v. split; [|split].
  - rewrite Hdata. apply list_lookup_insert_eq. unfold len in Hin. lia.
  - intros x ->. tauto.
  - apply get_gene_after_insert; [lia | assumption].
Qed.

Lemma get_gene_after_mutate_byte_witness :
  get_gene (mkGenome [0; 1; 2; 99; 4; 5]) 2 3 = Ok [2; 99; 4].
Proof.
  destruct (get_gene_after_mutate_byte
              (mkGenome [0; 1; 2; 3; 4; 5]) (mkGenome [0; 1; 2; 99; 4; 5])
              42 42 3 (Some 99) 2 3 eq_refl) as (v & _ & Hv & ->).
  rewrite (Hv 99 eq_refl). reflexivity.
Defined.

(** ** gene_decoder.py: what the results depend on *)

(** The decoders see a Genome through [get_gene] only. *)
Lemma decode_simple_attribute_ext (g g' : Genome) (start length : Z)
    (options : list string) :
  get_gene g' start length = get_gene g start length ->
  decode_simple_attribute g' start length options
  = decode_simple_attribute g start length options.
Proof. intros E. unfold decode_simple_attribute. rewrite E. reflexivity. Qed.

Lemma decode_interacting_genes_ext (g g' : Genome)
    (s1 l1 s2 l2 max_value : Z) :
  get_gene g' s1 l1 = get_gene g s1 l1 ->
  get_gene g' s2 l2 = get_gene g s2 l2 ->
  decode_interacting_genes g' s1 l1 s2 l2 max_value
  = decode_interacting_genes g s1 l1 s2 l2 max_value.
Proof.
  intros E1 E2. unfold decode_interacting_genes. rewrite E1, E2.
  reflexivity.
Qed.

Lemma get_gene_after_outside_write `{RandomSource R}
    (g g' : Genome) (r r' : R) (index : Z) (new_byte_value : option Z)
    (start length : Z) :
  mutate_byte index new_byte_value (g, r) = (Ok tt, (g', r')) ->
  ~ start <= index < start + length ->
  get_gene g' start length = get_gene g start length.
Proof.
  intros Hrun Hout.
  apply mutate_byte_ok_inv in Hrun as (Hin & v & _ & Hdata & _).
  rewrite (get_gene_after_insert g g' index v) by (first [lia | assumption]).
  destruct (get_gene g start length); [|reflexivity].
  destruct (decide (start <= index < start + length));
    [contradiction | reflexivity].
Qed.

(** The decoded label is the option at the sum's residue, given the
    sum. *)
Lemma decode_simple_attribute_by_sum (g : Genome) (start length : Z)
    (options : list string) (seg : list Z) (label : string) :
  get_gene g start length = Ok seg -> options <> [] ->
  options !! Z.to_nat (sum seg mod len options) = Some label ->
  decode_simple_attribute g start length options = Ok (Some label).
Proof.
  intros Hget Hne Hlabel. apply get_gene_ok_inv in Hget as [Hin ->].
  destruct (decode_simple_attribute_in_bounds g start length options Hin Hne)
    as (label' & Hlabel' & ->).
  congruence.
Qed.

(** X8. A write outside a segment changes nothing for a decoder that
    reads that segment: [decode_simple_attribute] returns what it
    returned before, and so does [decode_interacting_genes] when the
    write is outside both of its segments. *)
Theorem decoders_unchanged_by_outside_write `{RandomSource R}
    (g g' : Genome) (r r' : R) (index : Z) (new_byte_value : option Z) :
  mutate_byte index new_byte_value (g, r) = (Ok tt, (g', r')) ->
  (forall start length options,
      ~ start <= index < start + length ->
      decode_simple_attribute g' start length options
      = decode_simple_attribute g start length options)
  /\ (forall s1 l1 s2 l2 max_value,
        ~ s1 <= index < s1 + l1 -> ~ s2 <= index < s2 + l2 ->
        decode_interacting_genes g' s1 l1 s2 l2 max_value
        = decode_interacting_genes g s1 l1 s2 l2 max_value).
Proof.
  intros Hrun. split.
  - intros start length options Hout. apply decode_simple_attribute_ext.
    eapply get_gene_after_outside_write; eassumption.
  - intros s1 l1 s2 l2 max_value Hout1 Hout2.
    apply decode_interacting_genes_ext;
      eapply get_gene_after_outside_write; eassumption.
Qed.

Lemma decoders_unchanged_by_outside_write_witness :
  decode_interacting_genes (mkGenome [255; 1; 2; 3; 10; 11; 20; 21])
    4 2 6 2 100
  = Ok (Some 61).
Proof.
  destruct (decoders_unchanged_by_outside_write
              (mkGenome [0; 1; 2; 3; 10; 11; 20; 21])
              (mkGenome [255; 1; 2; 3; 10; 11; 20; 21])
              42 42 0 (Some 255) eq_refl) as [_ Hsize].
  rewrite Hsize by lia. reflexivity.
Defined.

(** X9. A write inside the segment of [decode_simple_attribute] moves
    the selected index by the difference of the new and the old byte:
    the label returned afterwards is the option at
    (old sum - old byte + new byte) mod (number of options). *)
Theorem decode_simple_attribute_after_write `{RandomSource R}
    (g g' : Genome) (r r' : R) (index value start length old : Z)
    (options : list string) :
  mutate_byte index (Some value) (g, r) = (Ok tt, (g', r')) ->
  in_bounds g start length -> start <= index < start + length ->
  data g !! Z.to_nat index = Some old -> options <> [] ->
  exists seg' label,
    get_gene g' start length = Ok seg'
    /\ sum seg' = sum (segment g start length) - old + value
    /\ options !! Z.to_nat ((sum (segment g start length) - old + value)
                            mod len options) = Some label
    /\ decode_simple_attribute g' start length options = Ok (Some label).
Proof.
  intros Hrun Hin Hidx Hold Hne.
  apply mutate_byte_ok_inv in Hrun as (Hrange & v & _ & Hdata & -> & _).
  pose proof (get_gene_after_insert g g' index value start length
                ltac:(lia) Hdata) as Hget.
  rewrite (get_gene_in_bounds g) in Hget by assumption.
  destruct (decide (start <= index < start + length)); [|contradiction].
  assert (segment g start length !! Z.to_nat (index - start) = Some old)
    as Hseg.
  { unfold in_bounds in Hin. rewrite segment_lookup by lia.
    rewrite <- Hold. f_equal. lia. }
  pose proof (sum_insert _ _ _ value Hseg) as Hsum.
  assert (0 < len options) as Hpos.
  { pose proof (len_nonneg options).
    destruct (decide (len options = 0)) as [E|]; [|lia].
    apply len_nil_iff in E. contradiction. }
  destruct (getitem_inside options
              ((sum (segment g start length) - old + value) mod len options))
    as (label & Hlabel & _); [apply Z.mod_pos_bound; assumption|].
  eexists _, label. split; [exact Hget|]. split; [exact Hsum|].
  split; [exact Hlabel|].
  eapply decode_simple_attribute_by_sum; [exact Hget | assumption|].
  rewrite Hsum. exact Hlabel.
Qed.

Lemma decode_simple_attribute_after_write_witness :
  decode_simple_attribute (mkGenome [255; 1; 2; 3; 10; 11; 20; 21]) 0 4
    COLOR_OPTIONS
  = Ok (Some "green"%string).
Proof.
  destruct (decode_simple_attribute_after_write
              (mkGenome [0; 1; 2; 3; 10; 11; 20; 21])
              (mkGenome [255; 1; 2; 3; 10; 11; 20; 21])
              42 42 0 255 0 4 0 COLOR_OPTIONS eq_refl)
    as (seg' & label & _ & _ & Hlabel & ->).
  - concrete.
  - lia.
  - reflexivity.
  - discriminate.
  - vm_compute in Hlabel. rewrite <- Hlabel. reflexivity.
Defined.

(** X10. [decode_simple_attribute] returns [None] exactly when the
    option list is empty or the coordinates are not a segment of the
    buffer; every label it returns is one of the options. *)
Theorem decode_simple_attribute_None_iff (g : Genome) (start length : Z)
    (options : list string) :
  (decode_simple_attribute g start length options = Ok None
   <-> options = [] \/ ~ in_bounds g start length)
  /\ (forall label,
        decode_simple_attribute g start length options = Ok (Some label) ->
        label ∈ options).
Proof.
  destruct (decide (options = [])) as [-> | Hne].
  { split; [split; [auto | reflexivity] | discriminate]. }
  destruct (get_gene_cases g start length) as [[Hin _] | [Hout _]].
  - destruct (decode_simple_attribute_in_bounds g start length options
                Hin Hne) as (label & Hlabel & ->).
    split.
    + split; [discriminate | intros [? | ?]; contradiction].
    + intros label' [= <-]. eapply list_elem_of_lookup_2. exact Hlabel.
  - rewrite decode_simple_attribute_out_of_bounds by assumption.
    split; [split; auto | discriminate].
Qed.

Lemma decode_simple_attribute_None_iff_witness :
  decode_simple_attribute (mkGenome [1; 2; 3]) 0 4 COLOR_OPTIONS = Ok None.
Proof.
  destruct (decode_simple_attribute_None_iff (mkGenome [1; 2; 3]) 0 4
              COLOR_OPTIONS) as [[_ Hnone] _].
  apply Hnone. right. concrete.
Defined.

(** X11. [decode_interacting_genes] returns [None] exactly when
    [max_value <= 0] or one of the two coordinate pairs is not a segment
    of the buffer. *)
Theorem decode_interacting_genes_None_iff (g : Genome)
    (s1 l1 s2 l2 max_value : Z) :
  decode_interacting_genes g s1 l1 s2 l2 max_value = Ok None
  <-> max_value <= 0 \/ ~ in_bounds g s1 l1 \/ ~ in_bounds g s2 l2.
Proof.
  destruct (Z.le_gt_cases max_value 0) as [Hle | Hpos].
  { rewrite decode_interacting_genes_non_positive by assumption. tauto. }
  destruct (get_gene_cases g s1 l1) as [[Hin1 _] | [Hout1 _]];
    [|rewrite decode_interacting_genes_out_of_bounds by auto; tauto].
  destruct (get_gene_cases g s2 l2) as [[Hin2 _] | [Hout2 _]];
    [|rewrite decode_interacting_genes_out_of_bounds by auto; tauto].
  rewrite decode_interacting_genes_in_bounds by (first [assumption | lia]).
  split; [discriminate | intros [? | [? | ?]]; [lia | contradiction..]].
Qed.

Lemma decode_interacting_genes_None_iff_witness :
  decode_interacting_genes (mkGenome [1; 2; 3]) 0 2 2 2 10 = Ok None.
Proof.
  destruct (decode_interacting_genes_None_iff (mkGenome [1; 2; 3])
              0 2 2 2 10) as [_ Hnone].
  apply Hnone. right. right. concrete.
Defined.

(** X12. [decode_interacting_genes] does not depend on the order in
    which the two segments are given. *)
Theorem decode_interacting_genes_swap (g : Genome)
    (s1 l1 s2 l2 max_value : Z) :
  decode_interacting_genes g s2 l2 s1 l1 max_value
  = decode_interacting_genes g s1 l1 s2 l2 max_value.
Proof.
  destruct (Z.le_gt_cases max_value 0) as [Hle | Hpos].
  { rewrite !decode_interacting_genes_non_positive by assumption.
    reflexivity. }
  destruct (get_gene_cases g s1 l1) as [[Hin1 _] | [Hout1 _]];
    [|rewrite !decode_interacting_genes_out_of_bounds by auto; reflexivity].
  destruct (get_gene_cases g s2 l2) as [[Hin2 _] | [Hout2 _]];
    [|rewrite !decode_interacting_genes_out_of_bounds by auto; reflexivity].
  rewrite !decode_interacting_genes_in_bounds by (first [assumption | lia]).
  rewrite Z.mul_comm. reflexivity.
Qed.

(** X13. [decode_simple_attribute] looks at the bytes of a segment
    through their sum only: two segments, of the same or of different
    genomes, that are permutations of each other decode to the same
    label. *)
Theorem decode_simple_attribute_Permutation (g1 g2 : Genome)
    (start1 length1 start2 length2 : Z) (options : list string)
    (seg1 seg2 : list Z) :
  get_gene g1 start1 length1 = Ok seg1 ->
  get_gene g2 start2 length2 = Ok seg2 ->
  seg1 ≡ₚ seg2 ->
  decode_simple_attribute g1 start1 length1 options
  = decode_simple_attribute g2 start2 length2 options.
Proof.
  intros H1 H2 Hperm.
  destruct (decide (options = [])) as [-> | Hne]; [reflexivity|].
  pose proof (get_gene_ok_inv _ _ _ _ H1) as [Hin1 E1].
  pose proof (get_gene_ok_inv _ _ _ _ H2) as [Hin2 E2].
  destruct (decode_simple_attribute_in_bounds g1 start1 length1 options
              Hin1 Hne) as (label & Hlabel & ->).
  symmetry. eapply decode_simple_attribute_by_sum; [exact H2 | assumption|].
  rewrite <- (sum_Permutation _ _ Hperm), E1. exact Hlabel.
Qed.

Lemma decode_simple_attribute_Permutation_witness :
  decode_simple_attribute (mkGenome [1; 0; 2; 3; 9]) 0 4 COLOR_OPTIONS
  = decode_simple_attribute (mkGenome [7; 0; 1; 2; 3]) 1 4 COLOR_OPTIONS.
Proof.
  apply (decode_simple_attribute_Permutation
           (mkGenome [1; 0; 2; 3; 9]) (mkGenome [7; 0; 1; 2; 3])
           0 4 1 4 COLOR_OPTIONS [1; 0; 2; 3] [0; 1; 2; 3]).
  - reflexivity.
  - reflexivity.
  - apply perm_swap.
Defined.

(** ** organism.py: decoding and construction *)

(** On a Genome of 8 bytes or more, the two entries in full. *)
Lemma decode_attributes_large (h : gmap loc Genome) (self : Organism)
    (g : Genome) :
  h !! genome self = Some g -> MIN_GENOME_SIZE <= len_ g ->
  exists label,
    COLOR_OPTIONS
      !! Z.to_nat (sum (segment g COLOR_GENE_START COLOR_GENE_LENGTH)
                   mod len COLOR_OPTIONS) = Some label
    /\ decode_attributes h self
       = (Ok tt,
          mkOrganism (genome self)
            (<["size"%string :=
                 VInt ((sum (segment g SIZE_GENE1_START SIZE_GENE1_LENGTH)
                        * sum (segment g SIZE_GENE2_START SIZE_GENE2_LENGTH))
                       mod SIZE_MAX_VALUE)]>
               (<["color"%string := VStr label]> (attributes self)))).
Proof.
  intros Hg Hlen.
  destruct (fixed_segments_in_bounds g Hlen) as (Hc & H1 & H2).
  destruct (decode_attributes_run h self g Hg)
    as (color & size & Hcolor & Hsize & ->).
  destruct (decode_simple_attribute_in_bounds g _ _ COLOR_OPTIONS Hc)
    as (label & Hlabel & Hcolor'); [discriminate|].
  rewrite decode_interacting_genes_in_bounds in Hsize
    by (first [assumption | reflexivity]).
  rewrite Hcolor' in Hcolor.
  injection Hcolor as <-. injection Hsize as <-.
  exists label. split; [exact Hlabel | reflexivity].
Qed.

Lemma as_Genome_Some (h : gmap loc Genome) (genome_instance : option loc)
    (l : loc) (g : Genome) :
  as_Genome h genome_instance = Some (l, g)
  <-> genome_instance = Some l /\ h !! l = Some g.
Proof.
  unfold as_Genome. destruct genome_instance as [l'|].
  - destruct (h !! l') as [g'|] eqn:E.
    + split; [intros [= <- <-]; auto | intros [[= <-] Hg]; congruence].
    + split; [discriminate | intros [[= <-] Hg]; congruence].
  - split; [discriminate | intros [? _]; discriminate].
Qed.

(** X14. [decode_attributes] on an Organism whose genome is a Genome
    never raises; it writes the two keys "color" and "size", leaves
    every other entry of the dictionary and the genome reference as
    they were, and running it again changes nothing. *)
Theorem decode_attributes_frame (h : gmap loc Genome) (self : Organism)
    (g : Genome) :
  h !! genome self = Some g ->
  exists self',
    decode_attributes h self = (Ok tt, self')
    /\ genome self' = genome self
    /\ is_Some (attributes self' !! "color"%string)
    /\ is_Some (attributes self' !! "size"%string)
    /\ (forall k : string,
          k <> "color"%string -> k <> "size"%string ->
          attributes self' !! k = attributes self !! k)
    /\ decode_attributes h self' = (Ok tt, self').
Proof.
  intros Hg.
  destruct (decode_attributes_run h self g Hg)
    as (color & size & Hcolor & Hsize & Hrun).
  eexists. split; [exact Hrun|]. cbn [genome attributes].
  split; [reflexivity|].
  split; [rewrite lookup_insert_ne by discriminate;
          rewrite lookup_insert_eq; eauto|].
  split; [rewrite lookup_insert_eq; eauto|].
  split.
  - intros k Hc Hs. rewrite !lookup_insert_ne by congruence. reflexivity.
  - destruct (decode_attributes_run h
                (mkOrganism (genome self)
                   (<["size"%string := of_number size]>
                      (<["color"%string := of_label color]>
                         (attributes self)))) g Hg)
      as (color' & size' & Hcolor' & Hsize' & ->).
    cbn [genome attributes].
    assert (color' = color) as -> by congruence.
    assert (size' = size) as -> by congruence.
    do 2 f_equal.
    rewrite (insert_insert_ne _ "color"%string "size"%string)
      by discriminate.
    rewrite !insert_insert_eq. reflexivity.
Qed.

Lemma decode_attributes_frame_witness :
  exists self',
    decode_attributes {[ 1%positive := mkGenome [0; 1; 2; 3; 10; 11; 20; 21] ]}
      (mkOrganism 1%positive {[ "name"%string := VStr "org3" ]})
    = (Ok tt, self')
    /\ attributes self' !! "name"%string = Some (VStr "org3").
Proof.
  destruct (decode_attributes_frame
              {[ 1%positive := mkGenome [0; 1; 2; 3; 10; 11; 20; 21] ]}
              (mkOrganism 1%positive {[ "name"%string := VStr "org3" ]})
              (mkGenome [0; 1; 2; 3; 10; 11; 20; 21]))
    as (self' & Hrun & _ & _ & _ & Hkeep & _).
  - reflexivity.
  - exists self'. split; [exact Hrun|].
    rewrite Hkeep by discriminate. reflexivity.
Defined.

Section organism_more_facts.
Context {R : Type} `{RandomSource R} `{Platform}.
Implicit Types (w : @World R) (l : loc) (g : Genome).

(** What a call of [init] that returns has done, for both ways of
    getting the genome. *)
Lemma init_ok_inv w w' (genome_size : Z) (genome_instance : option loc)
    (org : Organism) :
  init genome_size genome_instance w = (Ok org, w') ->
  exists g,
    heap w' !! genome org = Some g
    /\ MIN_GENOME_SIZE <= len_ g
    /\ decode_attributes (heap w') (mkOrganism (genome org) ∅) = (Ok tt, org)
    /\ (forall l' g', heap w !! l' = Some g' -> heap w' !! l' = Some g')
    /\ match as_Genome (heap w) genome_instance with
       | Some (l, g0) => genome org = l /\ g0 = g /\ w' = w
       | None =>
           heap w !! genome org = None
           /\ heap w' = <[genome org := g]> (heap w)
           /\ len_ g = Z.max genome_size MIN_GENOME_SIZE
           /\ stdout w' = stdout w ++
                          (if genome_size <? MIN_GENOME_SIZE
                           then [size_warning genome_size] else [])
       end.
Proof.
  intros Hrun.
  destruct (as_Genome (heap w) genome_instance) as [[l g]|] eqn:Has.
  - apply as_Genome_Some in Has as [-> Hl].
    destruct (decide (len_ g < MIN_GENOME_SIZE)) as [Hsmall | Hlarge].
    { rewrite (init_supplied_too_small w l g) in Hrun by assumption.
      discriminate. }
    destruct (init_supplied_large_enough w l g genome_size Hl
                ltac:(lia)) as (self' & Hdec & Hgen & Hrun').
    rewrite Hrun' in Hrun. injection Hrun as <- <-.
    exists g. rewrite Hgen.
    split; [assumption|]. split; [lia|]. split; [assumption|].
    split; [auto|]. auto.
  - destruct (init_without_genome_cases w genome_size genome_instance Has)
      as [(_ & _ & Hrun')
         | (_ & out & -> &
            [(e & _ & _ & Hrun')
            | (bs & r' & self' & _ & Hfresh & Hlen & _ & Hgen & Hdec
               & Hrun')])];
      rewrite Hrun' in Hrun; try discriminate.
    injection Hrun as <- <-.
    exists (mkGenome bs). rewrite Hgen. cbn [heap stdout].
    unfold len_. cbn [data].
    split; [apply lookup_insert_eq|].
    split; [rewrite Hlen; lia|]. split; [assumption|].
    split.
    + intros l' g' Hl'. rewrite lookup_insert_ne by congruence. assumption.
    + auto.
Qed.


(** X16. Every Organism that has been constructed has both attributes
    decoded, and only these two: its color is one of the ten
    [COLOR_OPTIONS], its size is a number in [0, 100), and its genome is
    a Genome of at least 8 bytes. *)
Theorem init_attributes_decoded w w' (genome_size : Z)
    (genome_instance : option loc) (org : Organism) :
  init genome_size genome_instance w = (Ok org, w') ->
  exists g label v,
    heap w' !! genome org = Some g
    /\ MIN_GENOME_SIZE <= len_ g
    /\ label ∈ COLOR_OPTIONS
    /\ 0 <= v < SIZE_MAX_VALUE
    /\ attributes org
       = {[ "color"%string := VStr label; "size"%string := VInt v ]}.
Proof.
  intros Hrun.
  apply init_ok_inv in Hrun as (g & Hg & Hlen & Hdec & _).
  destruct (decode_attributes_large (heap w') (mkOrganism (genome org) ∅) g
              Hg Hlen) as (label & Hlabel & Hdec').
  rewrite Hdec' in Hdec. injection Hdec as <-.
  eexists g, label, _. cbn [genome attributes].
  split; [assumption|]. split; [assumption|].
  split; [eapply list_elem_of_lookup_2; exact Hlabel|].
  split; [apply Z.mod_pos_bound; reflexivity|].
  rewrite insert_empty. apply insert_insert_ne. discriminate.
Qed.

(** X17. The construction of an Organism never touches a Genome that
    existed before. With a supplied Genome the world is left as it was;
    otherwise one new Genome is added, and one warning line is printed
    if the requested size was below 8, nothing if it was not. *)
Theorem init_world_effects w w' (genome_size : Z)
    (genome_instance : option loc) (org : Organism) :
  init genome_size genome_instance w = (Ok org, w') ->
  (forall l g, heap w !! l = Some g -> heap w' !! l = Some g)
  /\ (forall l g,
        genome_instance = Some l -> heap w !! l = Some g ->
        w' = w /\ genome org = l)
  /\ (genome_instance = None ->
      heap w !! genome org = None
      /\ dom (heap w') = {[ genome org ]} ∪ dom (heap w)
      /\ stdout w' = stdout w ++
                     (if genome_size <? MIN_GENOME_SIZE
                      then [size_warning genome_size] else [])).
Proof.
  intros Hrun.
  apply init_ok_inv in Hrun as (g & Hg & _ & _ & Hkeep & Hcase).
  split; [exact Hkeep|]. split.
  - intros l g0 -> Hl.
    assert (as_Genome (heap w) (Some l) = Some (l, g0)) as Has
      by (apply as_Genome_Some; auto).
    rewrite Has in Hcase. destruct Hcase as (-> & _ & ->). auto.
  - intros ->. cbn [as_Genome] in Hcase.
    destruct Hcase as (Hfresh & Hheap & _ & Hout).
    split; [assumption|]. split; [|assumption].
    rewrite Hheap. apply dom_insert_L.
Qed.

End organism_more_facts.


Lemma init_attributes_decoded_witness :
  exists org w' label v,
    init 4 None (mkWorld ∅ 42 []) = (Ok org, w')
    /\ attributes org
       = {[ "color"%string := VStr label; "size"%string := VInt v ]}.
Proof.
  destruct (init 4 None (mkWorld ∅ 42 [])) as [[org|e] w'] eqn:Hrun;
    [|vm_compute in Hrun; discriminate].
  destruct (init_attributes_decoded _ _ _ _ _ Hrun)
    as (g & label & v & _ & _ & _ & _ & Hattr).
  exists org, w', label, v. split; [reflexivity | exact Hattr].
Defined.

Lemma init_world_effects_witness :
  exists org w',
    init 4 None (mkWorld ∅ 42 []) = (Ok org, w')
    /\ stdout w'
       = ["Warning: Requested genome_size (4) is less than MIN_GENOME_SIZE (8). Adjusting to minimum size."%string].
Proof.
  destruct (init 4 None (mkWorld ∅ 42 [])) as [[org|e] w'] eqn:Hrun;
    [|vm_compute in Hrun; discriminate].
  destruct (init_world_effects _ _ _ _ _ Hrun) as (_ & _ & Hfresh).
  destruct (Hfresh eq_refl) as (_ & _ & Hout).
  exists org, w'. split; [reflexivity|]. rewrite Hout. reflexivity.
Defined.

(** ** organism.py: writes through the Organism's reference *)

Lemma mutate_byte_raise_inv `{RandomSource R} (g : Genome) (r : R)
    (index : Z) (new_byte_value : option Z) (e : exn) (st : Genome * R) :
  mutate_byte index new_byte_value (g, r) = (Raise e, st) -> st = (g, r).
Proof.
  intros Hrun.
  destruct (decide (0 <= index < len (data g))) as [Hin | Hout];
    [|rewrite mutate_byte_index_error in Hrun by assumption; congruence].
  destruct new_byte_value as [x|].
  - destruct (decide (0 <= x <= 255)) as [Hx | Hx].
    + rewrite mutate_byte_explicit_ok in Hrun by assumption. discriminate.
    + rewrite mutate_byte_value_error in Hrun by assumption. congruence.
  - rewrite mutate_byte_random_ok in Hrun by assumption. discriminate.
Qed.

(** X18. A write through the reference an Organism holds changes the
    Genome object the caller shares with it and no other; a write that
    raises changes nothing. The attributes follow only when
    [decode_attributes] is run again, and then a write outside bytes
    4..7 leaves "size" as it was, a write outside bytes 0..3 leaves
    "color" as it was, and a write at index 8 or above leaves the
    Organism as it was. *)
Theorem genome_mutate_byte_then_decode `{RandomSource R}
    (w : @World R) (self : Organism) (g : Genome) (index : Z)
    (new_byte_value : option Z) :
  heap w !! genome self = Some g ->
  decode_attributes (heap w) self = (Ok tt, self) ->
  (forall e w',
      genome_mutate_byte self index new_byte_value w = (Raise e, w') ->
      w' = w)
  /\ (forall w',
        genome_mutate_byte self index new_byte_value w = (Ok tt, w') ->
        exists g' self',
          mutate_byte index new_byte_value (g, entropy w)
          = (Ok tt, (g', entropy w'))
          /\ heap w' = <[genome self := g']> (heap w)
          /\ stdout w' = stdout w
          /\ decode_attributes (heap w') self = (Ok tt, self')
          /\ (~ 4 <= index < 8 ->
              attributes self' !! "size"%string
              = attributes self !! "size"%string)
          /\ (~ 0 <= index < 4 ->
              attributes self' !! "color"%string
              = attributes self !! "color"%string)
          /\ (~ 0 <= index < 8 -> self' = self)).
Proof.
  intros Hg Hself. unfold genome_mutate_byte, the_genome. rewrite Hg.
  destruct (mutate_byte index new_byte_value (g, entropy w))
    as [res [g' rng']] eqn:Hmut.
  split.
  - intros e w' [= -> <-].
    apply mutate_byte_raise_inv in Hmut. injection Hmut as -> ->.
    rewrite insert_id by assumption. destruct w; reflexivity.
  - intros w' [= -> <-]. cbn [heap entropy stdout].
    destruct (decode_attributes_run (heap w) self g Hg)
      as (color & size & Hcolor & Hsize & Hrun).
    destruct (decode_attributes_run (<[genome self := g']> (heap w)) self g'
                (lookup_insert_eq _ _ _))
      as (color' & size' & Hcolor' & Hsize' & Hrun').
    rewrite Hself in Hrun. injection Hrun as Hfix.
    eexists g', _. split; [reflexivity|]. split; [reflexivity|].
    split; [reflexivity|]. split; [exact Hrun'|]. cbn [attributes].
    assert (~ 4 <= index < 8 -> size' = size) as Hsz.
    { intros Hout.
      rewrite (decode_interacting_genes_ext g g') in Hsize'; [congruence|..];
        eapply get_gene_after_outside_write;
        first [exact Hmut
              | change SIZE_GENE1_START with 4;
                change SIZE_GENE1_LENGTH with 2; lia
              | change SIZE_GENE2_START with 6;
                change SIZE_GENE2_LENGTH with 2; lia]. }
    assert (~ 0 <= index < 4 -> color' = color) as Hco.
    { intros Hout.
      rewrite (decode_simple_attribute_ext g g') in Hcolor'; [congruence|].
      eapply get_gene_after_outside_write; [exact Hmut|].
      change COLOR_GENE_START with 0. change COLOR_GENE_LENGTH with 4. lia. }
    split; [|split].
    + intros Hout. rewrite (Hsz Hout). rewrite Hfix at 2. cbn [attributes].
      rewrite !lookup_insert_eq. reflexivity.
    + intros Hout. rewrite (Hco Hout). rewrite Hfix at 2. cbn [attributes].
      rewrite !(lookup_insert_ne _ "size"%string) by discriminate.
      rewrite !lookup_insert_eq. reflexivity.
    + intros Hout. rewrite Hsz, Hco by lia. symmetry. exact Hfix.
Qed.

Lemma genome_mutate_byte_then_decode_witness :
  exists w' self',
    genome_mutate_byte
      (mkOrganism 1%positive
         {[ "color"%string := VStr "pink"; "size"%string := VInt 61 ]})
      0 (Some 255)
      (mkWorld {[ 1%positive := mkGenome [0; 1; 2; 3; 10; 11; 20; 21] ]}
         42 [])
    = (Ok tt, w')
    /\ decode_attributes (heap w')
         (mkOrganism 1%positive
            {[ "color"%string := VStr "pink"; "size"%string := VInt 61 ]})
       = (Ok tt, self')
    /\ attributes self' !! "size"%string = Some (VInt 61).
Proof.
  destruct (genome_mutate_byte_then_decode
              (mkWorld
                 {[ 1%positive := mkGenome [0; 1; 2; 3; 10; 11; 20; 21] ]}
                 42 [])
              (mkOrganism 1%positive
                 {[ "color"%string := VStr "pink";
                    "size"%string := VInt 61 ]})
              (mkGenome [0; 1; 2; 3; 10; 11; 20; 21]) 0 (Some 255))
    as [_ Hok].
  - reflexivity.
  - vm_compute. reflexivity.
  - eexists. destruct (Hok _ eq_refl)
      as (g' & self' & _ & _ & _ & Hdec & Hsize & _).
    exists self'. split; [reflexivity|]. split; [exact Hdec|].
    rewrite Hsize by lia. reflexivity.
Defined.

(** ** genome.py: the hexadecimal form *)

Lemma hex_value_hex_digit (n : Z) :
  0 <= n < 16 -> hex_value (hex_digit n) = n.
Proof.
  intros Hn. rewrite <- (Z2Nat.id n) by lia.
  assert (Z.to_nat n < 16)%nat as Hk by lia.
  remember (Z.to_nat n) as k eqn:E. clear E Hn n.
  do 16 (destruct k as [|k]; [reflexivity|]). lia.
Qed.

Lemma unhex_hex (b : list Z) : is_bytes b -> unhex (hex b) = b.
Proof.
  induction 1 as [|x b Hx _ IH]; [reflexivity|].
  cbn [hex foldr unhex]. fold (hex b). rewrite IH. f_equal.
  pose proof (Z.mod_pos_bound x 16 eq_refl).
  rewrite !hex_value_hex_digit by
    (first [assumption
           | split; [apply Z.div_pos; lia
                    | apply Z.div_lt_upper_bound; lia]]).
  rewrite (Z.div_mod x 16) at 3 by lia. reflexivity.
Qed.

Lemma hex_length (b : list Z) :
  String.length (hex b) = (2 * List.length b)%nat.
Proof.
  induction b as [|x b IH]; [reflexivity|].
  cbn [hex foldr String.length List.length]. fold (hex b). lia.
Qed.

(** X19. The string form of a Genome has two characters per byte, and
    on buffers of bytes it can be read back: two Genomes with the same
    string form hold the same bytes. *)
Theorem str_spec (g1 g2 : Genome) :
  String.length (str_ g1) = (2 * List.length (data g1))%nat
  /\ (is_bytes (data g1) -> unhex (str_ g1) = data g1)
  /\ (is_bytes (data g1) -> is_bytes (data g2) ->
      str_ g1 = str_ g2 -> data g1 = data g2).
Proof.
  unfold str_. split; [apply hex_length|]. split; [apply unhex_hex|].
  intros H1 H2 E.
  rewrite <- (unhex_hex (data g1)), <- (unhex_hex (data g2)) by assumption.
  rewrite E. reflexivity.
Qed.

Lemma str_spec_witness :
  unhex "01020304ffab" = [1; 2; 3; 4; 255; 171].
Proof.
  destruct (str_spec (mkGenome [1; 2; 3; 4; 255; 171])
              (mkGenome [1; 2; 3; 4; 255; 171])) as (_ & Hback & _).
  apply Hback. repeat constructor; lia.
Defined.
